(** * ChArUco calibration and metrology pipeline: a shallow embedding

    The development follows the Python sources file by file:

    - [np], [json_np]          the NumPy and json operations the sources call;
    - [config]                 [config.py];
    - [measurements]           [measurements.py], class [Measurement];
    - [intrinsic_calibration]  [intrinsic_calibration.py], classes
                               [CalibrationWorker] and [IntrinsicCalibration];
    - [extrinsic_calibration]  [extrinsic_calibration.py];
    - [video_thread]           the detection dict of [video_thread.py];
    - [Calibration_App]        the handlers of [Calibration_App.py] that drive
                               the three classes above;
    - [MetrologyEngine]        the ray-plane algorithm in the words of the
                               specification, for comparison with the code.

    Python floats and NumPy float64 scalars are IEEE-754 binary64 numbers, so
    they are modelled by Rocq's primitive [float].  Methods that read or write
    [self] take the object as an argument and return it next to their result.
    Exceptions are values of type [exn] carried by [res].  The definitions
    come first, the properties after them. *)

From Stdlib Require Import ZArith Lia Floats String List Bool Sorted.
From stdpp Require Import base option list strings gmap.
Import ListNotations.

#[local] Set Warnings "-inexact-float,-register-all".
#[local] Open Scope string_scope.

(** ** Python exceptions and results *)

Inductive exn : Type :=
| ValueError (msg : string)
| RuntimeError (msg : string)
| TypeError (msg : string)
| IndexError (msg : string)
| KeyError (key : string)
| FileNotFoundError (path : string)
| AttributeError (msg : string)
| OverflowError (msg : string)
| cv2_error (msg : string).

(** [str(e)] for an exception [e]. *)
Definition str (e : exn) : string :=
  match e with
  | ValueError m | RuntimeError m | TypeError m | IndexError m | AttributeError m
  | OverflowError m | cv2_error m => m
  | KeyError k => "'" ++ k ++ "'"
  | FileNotFoundError p => "[Errno 2] No such file or directory: '" ++ p ++ "'"
  end.

Inductive res (A : Type) : Type :=
| Ok (a : A)
| Raise (e : exn).
Arguments Ok {A} a.
Arguments Raise {A} e.

#[global] Instance res_ret : MRet res := fun A a => Ok a.
#[global] Instance res_bind : MBind res := fun A B k r =>
  match r with
  | Ok a => k a
  | Raise e => Raise e
  end.

(** ** Numbers and small arrays *)

Record vec3 : Type := Vec3 { v0 : float; v1 : float; v2 : float }.

(** A 3x3 float64 array, by rows: [M[i, j]] is component [j] of [row i]. *)
Record mat3 : Type := Mat3 { row0 : vec3; row1 : vec3; row2 : vec3 }.

(** An n-dimensional float64 array, as the nested lists [tolist()] shows. *)
Inductive ndarray : Type :=
| Num (f : float)
| Arr (l : list ndarray).

Module np.

(** The float64 nearest to an integer, ties to even (exact for every integer
    of magnitude up to 2^53); infinite when the integer is beyond the float64
    range. *)
Definition nearest_float64 (z : Z) : float :=
  SF2Prim (binary_normalize prec emax z 0 false).

(** Whether a Python [int] converts to float64: its nearest float64 is not
    infinite (so for magnitudes below 2^1024, up to rounding). *)
Definition fits_float64 (z : Z) : bool :=
  negb (PrimFloat.is_infinity (nearest_float64 z)).

(** Conversion of a Python [int] to float64, as [z - cx] does it for an int [z]
    and a float64 [cx]: [OverflowError] when the int does not fit. *)
Definition float_of_int (z : Z) : res float :=
  if fits_float64 z then Ok (nearest_float64 z)
  else Raise (OverflowError "int too large to convert to float").

(** [a.dot(b)] for two vectors of length 3. *)
Definition dot (a b : vec3) : float :=
  (v0 a * v0 b + v1 a * v1 b + v2 a * v2 b)%float.

(** [a - b], elementwise. *)
Definition sub (a b : vec3) : vec3 :=
  Vec3 (v0 a - v0 b) (v1 a - v1 b) (v2 a - v2 b)%float.

(** [s * a] for a scalar [s]. *)
Definition scale (s : float) (a : vec3) : vec3 :=
  Vec3 (s * v0 a) (s * v1 a) (s * v2 a)%float.

(** [np.linalg.norm(a)]: the square root of [a.dot(a)]. *)
Definition linalg_norm (a : vec3) : float := PrimFloat.sqrt (dot a a).

(** [M[:, j]]: column [j] of a 3x3 array. *)
Definition col0 (M : mat3) : vec3 := Vec3 (v0 (row0 M)) (v0 (row1 M)) (v0 (row2 M)).
Definition col1 (M : mat3) : vec3 := Vec3 (v1 (row0 M)) (v1 (row1 M)) (v1 (row2 M)).
Definition col2 (M : mat3) : vec3 := Vec3 (v2 (row0 M)) (v2 (row1 M)) (v2 (row2 M)).

(** [M.T], and [M.dot(a)] for a 3x3 array and a vector. *)
Definition transpose (M : mat3) : mat3 := Mat3 (col0 M) (col1 M) (col2 M).
Definition matvec (M : mat3) (a : vec3) : vec3 :=
  Vec3 (dot (row0 M) a) (dot (row1 M) a) (dot (row2 M) a).

(** [M[:, :2].T.dot(a)]: the first two columns of [M], as rows, times [a]. *)
Definition cols2_T_dot (M : mat3) (a : vec3) : float * float :=
  (dot (col0 M) a, dot (col1 M) a).

End np.

(** ** The OpenCV routines the sources call

    They are outside the repository; the model takes them as an interface so
    that every statement holds for whatever they compute. *)

Definition pixel : Type := (Z * Z)%type.

(** Both coordinates of a pixel convert to float64. *)
Definition pixel_fits (p : pixel) : bool :=
  np.fits_float64 (fst p) && np.fits_float64 (snd p).

(** What [cv2.solvePnP] hands back: [(success, rvec, tvec)], or a raised
    [cv2.error]. *)
Definition pnp_result : Type := res (bool * vec3 * vec3).

Class CV2 : Type := {
  (** [cv2.Rodrigues(rvec)[0]]: rotation vector to rotation matrix. *)
  Rodrigues : vec3 -> mat3;
  (** [cv2.solvePnP(obj_pts, img_pts, camera_matrix, dist_coeffs,
      flags=SOLVEPNP_ITERATIVE)], on the float32 copies of the points. *)
  solvePnP : list vec3 -> list (float * float) -> mat3 -> ndarray -> pnp_result;
}.

(** ** [config.py] *)

Module config.

Definition CALIB_FILE : string := "camera_calibration.json".
Definition EXTRINSICS_FILE : string := "camera_extrinsics.json".
Definition MIN_CHARUCO_CORNERS : Z := 4.

End config.

(** ** [measurements.py] *)

Module measurements.

(** The attributes of a [Measurement] object.  [None] attributes are [None]
    here; [click_points] is the Python list, oldest click first. *)
Record Measurement : Type := {
  camera_matrix : option mat3;
  dist_coeffs : option ndarray;
  rvec : option vec3;
  tvec : option vec3;
  click_points : list pixel;
}.

(** [Measurement(camera_matrix, dist_coeffs, rvec, tvec)]. *)
Definition new (camera_matrix : option mat3) (dist_coeffs : option ndarray)
    (rvec tvec : option vec3) : Measurement :=
  {| camera_matrix := camera_matrix; dist_coeffs := dist_coeffs;
     rvec := rvec; tvec := tvec; click_points := [] |}.

Definition set_calibration (self : Measurement) (camera_matrix : mat3)
    (dist_coeffs : ndarray) (rvec tvec : vec3) : Measurement :=
  {| camera_matrix := Some camera_matrix; dist_coeffs := Some dist_coeffs;
     rvec := Some rvec; tvec := Some tvec;
     click_points := click_points self |}.

(** [self.click_points.append(pixel_coords); return len(self.click_points)]. *)
Definition add_click_point (self : Measurement) (pixel_coords : pixel)
    : nat * Measurement :=
  let self' :=
    {| camera_matrix := camera_matrix self; dist_coeffs := dist_coeffs self;
       rvec := rvec self; tvec := tvec self;
       click_points := click_points self ++ [pixel_coords] |} in
  (length (click_points self'), self').

Definition get_click_count (self : Measurement) : nat :=
  length (click_points self).

Definition reset_points (self : Measurement) : Measurement :=
  {| camera_matrix := camera_matrix self; dist_coeffs := dist_coeffs self;
     rvec := rvec self; tvec := tvec self; click_points := [] |}.

(** Reading an attribute that the callers have checked; on [None] Python
    raises at the first use. *)
Definition subscriptable {A : Type} (o : option A) : res A :=
  match o with
  | Some a => Ok a
  | None => Raise (TypeError "'NoneType' object is not subscriptable")
  end.

Definition flatten {A : Type} (o : option A) : res A :=
  match o with
  | Some a => Ok a
  | None => Raise (AttributeError "'NoneType' object has no attribute 'flatten'")
  end.

(** [l[i]] on a Python list, for [i >= 0]. *)
Definition getitem {A : Type} (l : list A) (i : nat) : res A :=
  match l !! i with
  | Some a => Ok a
  | None => Raise (IndexError "list index out of range")
  end.

(** [image_to_plane(self, pt, R, plane_normal_cam, d)].  The clicked point is
    used as it is: the distortion coefficients play no part.  [pt[0] - cx] and
    [pt[1] - cy] convert the int coordinate to float64 first, and raise
    [OverflowError] when it does not fit. *)
Definition image_to_plane (self : Measurement) (pt : pixel) (R : mat3)
    (plane_normal_cam : vec3) (d : float) : res vec3 :=
  K ← subscriptable (camera_matrix self);
  let fx := v0 (row0 K) in
  let fy := v1 (row1 K) in
  let cx := v2 (row0 K) in
  let cy := v2 (row1 K) in
  px ← np.float_of_int (fst pt);
  let x := ((px - cx) / fx)%float in
  py ← np.float_of_int (snd pt);
  let y := ((py - cy) / fy)%float in
  let ray_cam := Vec3 x y 1%float in
  let denom := np.dot plane_normal_cam ray_cam in
  if (PrimFloat.abs denom <? 1e-9)%float then
    Raise (RuntimeError "Ray nearly parallel to plane")
  else
    let s := (PrimFloat.opp d / denom)%float in
    let Xc := np.scale s ray_cam in
    t ← flatten (tvec self);
    let obj_xy := np.cols2_T_dot R (np.sub Xc t) in
    Ok (Vec3 (fst obj_xy) (snd obj_xy) 0%float).

(** The tuple [compute_distance] returns:
    [(success, message, distance_m, distance_cm, point1_3d, point2_3d)]. *)
Definition distance_result : Type :=
  (bool * string * option float * option float * option vec3 * option vec3)%type.

Definition failure (message : string) : distance_result :=
  (false, message, None, None, None, None).

(** The [success] component of the tuple. *)
Definition success_of (r : distance_result) : bool :=
  let '(success, _, _, _, _, _) := r in success.

(** The body of the [try] block of [compute_distance]. *)
Definition compute_distance_try `{CV2} (self : Measurement)
    : res (float * float * vec3 * vec3) :=
  rv ← flatten (rvec self);
  let R := Rodrigues rv in
  let plane_normal_cam := np.col2 R in
  t ← flatten (tvec self);
  let d := PrimFloat.opp (np.dot plane_normal_cam t) in
  p0 ← getitem (click_points self) 0;
  pt1_3d ← image_to_plane self p0 R plane_normal_cam d;
  p1 ← getitem (click_points self) 1;
  pt2_3d ← image_to_plane self p1 R plane_normal_cam d;
  let distance_m := np.linalg_norm (np.sub pt2_3d pt1_3d) in
  let distance_cm := (distance_m * 100)%float in
  Ok (distance_m, distance_cm, pt1_3d, pt2_3d).

(** [compute_distance(self)]; the object is returned next to the tuple. *)
Definition compute_distance `{CV2} (self : Measurement)
    : distance_result * Measurement :=
  if (length (click_points self) <? 2)%nat then
    (failure "Need 2 points for distance measurement", self)
  else
    match camera_matrix self, dist_coeffs self with
    | Some _, Some _ =>
      match rvec self, tvec self with
      | Some _, Some _ =>
        match compute_distance_try self with
        | Ok (distance_m, distance_cm, pt1_3d, pt2_3d) =>
          ((true, "Distance computed successfully", Some distance_m,
            Some distance_cm, Some pt1_3d, Some pt2_3d), self)
        | Raise e => (failure ("Error computing distance: " ++ str e), self)
        end
      | _, _ => (failure "Camera extrinsics not loaded", self)
      end
    | _, _ => (failure "Camera intrinsics not loaded", self)
    end.

End measurements.

(** ** JSON documents and the files that hold them

    [json.dump] followed by [json.load] gives back the same numbers (floats
    are written with [repr], which round-trips), so a file is modelled by the
    JSON value it holds and the file system by a map from paths to values. *)

Inductive json : Type :=
| JNull
| JInt (z : Z)
| JFloat (f : float)
| JList (l : list json)
| JObject (kv : list (string * json)).

Abbreviation files := (gmap string json).

Module json_np.

(** [a.tolist()]. *)
Fixpoint tolist (a : ndarray) : json :=
  match a with
  | Num f => JFloat f
  | Arr l => JList (map tolist l)
  end.

(** [a.shape], when the nesting is rectangular. *)
Fixpoint shape (a : ndarray) : option (list nat) :=
  match a with
  | Num _ => Some []
  | Arr l =>
    match map shape l with
    | [] => Some [0%nat]
    | Some s :: rest =>
      if forallb (fun o => bool_decide (o = Some s)) rest
      then Some (length l :: s) else None
    | None :: _ => None
    end
  end.

(** The element-by-element conversion that [np.array(x, dtype=np.float64)]
    applies to a value read by [json.load]. *)
Fixpoint elements (j : json) : res ndarray :=
  match j with
  | JNull => Ok (Num PrimFloat.nan)
  | JInt z => f ← np.float_of_int z; Ok (Num f)
  | JFloat f => Ok (Num f)
  | JList l =>
    l' ← (fix go (l : list json) : res (list ndarray) :=
            match l with
            | [] => Ok []
            | x :: r => a ← elements x; r' ← go r; Ok (a :: r')
            end) l;
    Ok (Arr l')
  | JObject _ =>
    Raise (TypeError "float() argument must be a string or a real number, not 'dict'")
  end.

(** [np.array(x, dtype=np.float64)]: ragged nesting is refused. *)
Definition array (j : json) : res ndarray :=
  a ← elements j;
  match shape a with
  | Some _ => Ok a
  | None =>
    Raise (ValueError "setting an array element with a sequence.")
  end.

(** [a.flatten()], as a list. *)
Fixpoint flatten (a : ndarray) : list float :=
  match a with
  | Num f => [f]
  | Arr l => concat (map flatten l)
  end.

(** [a.reshape(3, 1)], as the vector of its three entries. *)
Definition reshape_3_1 (a : ndarray) : res vec3 :=
  match flatten a with
  | [x; y; z] => Ok (Vec3 x y z)
  | _ => Raise (ValueError "cannot reshape array into shape (3,1)")
  end.

(** [v.flatten().tolist()] for a 3x1 array. *)
Definition vec_tolist (v : vec3) : json :=
  JList [JFloat (v0 v); JFloat (v1 v); JFloat (v2 v)].

(** [data[key]] on the dict that [json.load] returned. *)
Fixpoint lookup_key (key : string) (kv : list (string * json)) : option json :=
  match kv with
  | [] => None
  | (k, v) :: kv' => if String.eqb k key then Some v else lookup_key key kv'
  end.

Definition getitem (data : json) (key : string) : res json :=
  match data with
  | JObject kv =>
    match lookup_key key kv with
    | Some v => Ok v
    | None => Raise (KeyError key)
    end
  | JList _ => Raise (TypeError "list indices must be integers or slices, not str")
  | _ => Raise (TypeError "object is not subscriptable")
  end.

(** [open(filepath, 'r')] then [json.load]. *)
Definition load (fs : files) (filepath : string) : res json :=
  match fs !! filepath with
  | Some j => Ok j
  | None => Raise (FileNotFoundError filepath)
  end.

(** [open(filepath, 'w')] then [json.dump]: the file is replaced.  A path is
    taken as it is written: two spellings of one file are two keys here, so the
    statements below speak of one path, or of the two default file names. *)
Definition dump (j : json) (fs : files) (filepath : string) : files :=
  <[filepath := j]> fs.

End json_np.

(** The part of the OpenCV ArUco module and of Python's formatting that the
    calibration worker uses. *)

Definition charuco_corners_t : Type := option (list (float * float)).
Definition charuco_ids_t : Type := option (list Z).

(** A ChArUco board, by what [board.getChessboardCorners()] returns. *)
Record CharucoBoard : Type := { getChessboardCorners : list vec3 }.

Class Aruco : Type := {
  (** [cv2.aruco.calibrateCameraCharuco(corners, ids, board, image_size,
      None, None)], cut to [(ret, camera_matrix, dist_coeffs)]. *)
  calibrateCameraCharuco :
    list charuco_corners_t -> list charuco_ids_t -> CharucoBoard ->
    option (Z * Z) -> res (float * ndarray * ndarray);
  (** [f"{x:.4f}"]. *)
  format_4f : float -> string;
}.

(** ** [intrinsic_calibration.py] *)

Module intrinsic_calibration.

(** The dict [calib_data] that the worker builds and [save_calibration]
    writes. *)
Record calib_data : Type := {
  cd_camera_matrix : json;
  cd_dist_coeffs : json;
  cd_rms : float;
  cd_image_size : option (Z * Z);
}.

(** [json.dump(calib_data, f, indent=2)]: a tuple is written as an array. *)
Definition calib_json (d : calib_data) : json :=
  JObject [("camera_matrix", cd_camera_matrix d);
           ("dist_coeffs", cd_dist_coeffs d);
           ("rms", JFloat (cd_rms d));
           ("image_size",
            match cd_image_size d with
            | Some (w, h) => JList [JInt w; JInt h]
            | None => JNull
            end)].

(** The Qt signals of [CalibrationWorker], in the order they are emitted. *)
Inductive signal : Type :=
| progress (message : string)
| finished (success : bool) (message : string) (data : option calib_data).

Record CalibrationWorker : Type := {
  corners : list charuco_corners_t;
  ids : list charuco_ids_t;
  board : CharucoBoard;
  w_image_size : option (Z * Z);
}.

(** [CalibrationWorker.run(self)]. *)
Definition run `{Aruco} (self : CalibrationWorker) : list signal :=
  progress "Running calibration algorithm..." ::
  match calibrateCameraCharuco (corners self) (ids self) (board self)
          (w_image_size self) with
  | Ok (ret, camera_matrix, dist_coeffs) =>
    if (ret =? 0)%float || (2 <? ret)%float then
      [finished false "Calibration RMS error too high. Collect better frames."
         None]
    else
      let calib_data :=
        {| cd_camera_matrix := json_np.tolist camera_matrix;
           cd_dist_coeffs := json_np.tolist dist_coeffs;
           cd_rms := ret;
           cd_image_size := w_image_size self |} in
      [progress ("Calibration successful! RMS = " ++ format_4f ret);
       finished true
         ("Calibration completed with RMS error: " ++ format_4f ret)
         (Some calib_data)]
  | Raise e => [finished false ("Calibration failed: " ++ str e) None]
  end.

Record IntrinsicCalibration : Type := {
  all_charuco_corners : list charuco_corners_t;
  all_charuco_ids : list charuco_ids_t;
  image_size : option (Z * Z);
}.

Definition new : IntrinsicCalibration :=
  {| all_charuco_corners := []; all_charuco_ids := []; image_size := None |}.

(** [add_frame(self, charuco_corners, charuco_ids, image_size)]. *)
Definition add_frame (self : IntrinsicCalibration)
    (charuco_corners : charuco_corners_t) (charuco_ids : charuco_ids_t)
    (image_size' : option (Z * Z)) : nat * IntrinsicCalibration :=
  let self' :=
    {| all_charuco_corners := all_charuco_corners self ++ [charuco_corners];
       all_charuco_ids := all_charuco_ids self ++ [charuco_ids];
       image_size :=
         match image_size self with
         | None => image_size'
         | Some s => Some s
         end |} in
  (length (all_charuco_corners self'), self').

Definition get_frame_count (self : IntrinsicCalibration) : nat :=
  length (all_charuco_corners self).

Definition clear_frames (self : IntrinsicCalibration) : IntrinsicCalibration :=
  new.

Definition run_calibration (self : IntrinsicCalibration) (board : CharucoBoard)
    : res CalibrationWorker :=
  if (get_frame_count self <? 8)%nat then
    Raise (ValueError "Need at least 8 frames for calibration")
  else
    Ok {| corners := all_charuco_corners self; ids := all_charuco_ids self;
          board := board; w_image_size := image_size self |}.

(** [save_calibration(calib_data, filepath)]: returns the path written. *)
Definition save_calibration (calib_data : calib_data)
    (filepath : option string) (fs : files) : string * files :=
  let filepath := default config.CALIB_FILE filepath in
  (filepath, json_np.dump (calib_json calib_data) fs filepath).

(** [load_calibration(filepath)]: [(camera_matrix, dist_coeffs)]. *)
Definition load_calibration (filepath : option string) (fs : files)
    : res (ndarray * ndarray) :=
  let filepath := default config.CALIB_FILE filepath in
  data ← json_np.load fs filepath;
  cm ← json_np.getitem data "camera_matrix";
  camera_matrix ← json_np.array cm;
  dc ← json_np.getitem data "dist_coeffs";
  dist_coeffs ← json_np.array dc;
  Ok (camera_matrix, dist_coeffs).

End intrinsic_calibration.

(** ** [extrinsic_calibration.py] *)

Module extrinsic_calibration.

Record ExtrinsicCalibration : Type := {
  camera_matrix : option mat3;
  dist_coeffs : option ndarray;
  rvec : option vec3;
  tvec : option vec3;
}.

Definition new (camera_matrix : option mat3) (dist_coeffs : option ndarray)
    : ExtrinsicCalibration :=
  {| camera_matrix := camera_matrix; dist_coeffs := dist_coeffs;
     rvec := None; tvec := None |}.

Definition set_intrinsics (self : ExtrinsicCalibration) (camera_matrix : mat3)
    (dist_coeffs : ndarray) : ExtrinsicCalibration :=
  {| camera_matrix := Some camera_matrix; dist_coeffs := Some dist_coeffs;
     rvec := rvec self; tvec := tvec self |}.

(** [obj_points[i]] on a NumPy array of [n] rows: indices from [-n] to
    [n - 1] are accepted, negative ones count from the end. *)
Definition np_getitem {A : Type} (obj_points : list A) (i : Z) : res A :=
  let n := Z.of_nat (length obj_points) in
  let j := (if i <? 0 then i + n else i)%Z in
  if ((0 <=? j) && (j <? n))%Z then
    match obj_points !! Z.to_nat j with
    | Some a => Ok a
    | None => Raise (IndexError "index out of bounds")
    end
  else Raise (IndexError "index out of bounds").

(** [[obj_points[id[0]] for id in charuco_ids]]. *)
Fixpoint gather {A : Type} (obj_points : list A) (charuco_ids : list Z)
    : res (list A) :=
  match charuco_ids with
  | [] => Ok []
  | i :: rest =>
    a ← np_getitem obj_points i;
    r ← gather obj_points rest;
    Ok (a :: r)
  end.

(** The tuple [capture_pose] returns: [(success, message, rvec, tvec)]. *)
Definition pose_result : Type :=
  (bool * string * option vec3 * option vec3)%type.

(** The body of the [try] block of [capture_pose], up to the call of
    [cv2.solvePnP]. *)
Definition capture_pose_try `{CV2} (camera_matrix : mat3) (dist_coeffs : ndarray)
    (charuco_corners : list (float * float)) (charuco_ids : charuco_ids_t)
    (board : CharucoBoard) : res (bool * vec3 * vec3) :=
  let obj_points := getChessboardCorners board in
  ids ← match charuco_ids with
        | Some ids => Ok ids
        | None => Raise (TypeError "'NoneType' object is not iterable")
        end;
  obj_pts ← gather obj_points ids;
  let img_pts := charuco_corners in
  solvePnP obj_pts img_pts camera_matrix dist_coeffs.

(** [capture_pose(self, charuco_corners, charuco_ids, board)]: what the call
    returns or raises, and the object afterwards. *)
Definition capture_pose `{CV2} (self : ExtrinsicCalibration)
    (charuco_corners : charuco_corners_t) (charuco_ids : charuco_ids_t)
    (board : CharucoBoard) : res pose_result * ExtrinsicCalibration :=
  match camera_matrix self, dist_coeffs self with
  | Some K, Some dc =>
    match charuco_corners with
    | None =>
      (Ok (false, "Need at least 4 ChArUco corners for pose estimation",
           None, None), self)
    | Some cs =>
      if (length cs <? 4)%nat then
        (Ok (false, "Need at least 4 ChArUco corners for pose estimation",
             None, None), self)
      else
        match capture_pose_try K dc cs charuco_ids board with
        | Ok (true, rvec', tvec') =>
          (Ok (true, "Extrinsics captured successfully", Some rvec', Some tvec'),
           {| camera_matrix := camera_matrix self;
              dist_coeffs := dist_coeffs self;
              rvec := Some rvec'; tvec := Some tvec' |})
        | Ok (false, _, _) => (Ok (false, "solvePnP failed", None, None), self)
        | Raise e =>
          (Ok (false, "Pose estimation error: " ++ str e, None, None), self)
        end
    end
  | _, _ =>
    (Raise (ValueError "Camera intrinsics not set. Load calibration first."),
     self)
  end.

(** [save_extrinsics(self, rvec, tvec, filepath)]. *)
Definition save_extrinsics (self : ExtrinsicCalibration)
    (rvec' tvec' : option vec3) (filepath : option string) (fs : files)
    : res (string * files) :=
  let rvec' := match rvec' with None => rvec self | Some r => Some r end in
  let tvec' := match tvec' with None => tvec self | Some t => Some t end in
  match rvec', tvec' with
  | Some r, Some t =>
    let filepath := default config.EXTRINSICS_FILE filepath in
    let extrinsics_data :=
      JObject [("rvec", json_np.vec_tolist r); ("tvec", json_np.vec_tolist t)] in
    Ok (filepath, json_np.dump extrinsics_data fs filepath)
  | _, _ => Raise (ValueError "Rotation or translation vector not available")
  end.

(** [load_intrinsics(filepath)]. *)
Definition load_intrinsics (filepath : option string) (fs : files)
    : res (ndarray * ndarray) :=
  let filepath := default config.CALIB_FILE filepath in
  data ← json_np.load fs filepath;
  cm ← json_np.getitem data "camera_matrix";
  camera_matrix ← json_np.array cm;
  dc ← json_np.getitem data "dist_coeffs";
  dist_coeffs ← json_np.array dc;
  Ok (camera_matrix, dist_coeffs).

(** [load_extrinsics(filepath)]: [(rvec, tvec)], each reshaped to 3x1. *)
Definition load_extrinsics (filepath : option string) (fs : files)
    : res (vec3 * vec3) :=
  let filepath := default config.EXTRINSICS_FILE filepath in
  data ← json_np.load fs filepath;
  r ← json_np.getitem data "rvec";
  ra ← json_np.array r;
  rvec ← json_np.reshape_3_1 ra;
  t ← json_np.getitem data "tvec";
  ta ← json_np.array t;
  tvec ← json_np.reshape_3_1 ta;
  Ok (rvec, tvec).

End extrinsic_calibration.

(** ** [video_thread.py]: the dict emitted with every frame *)

Module video_thread.

Record detection_info : Type := {
  corners_detected : Z;
  charuco_corners : charuco_corners_t;
  charuco_ids : charuco_ids_t;
  (** [frame.shape[0]] and [frame.shape[1]]: rows, then columns. *)
  frame_shape : Z * Z;
}.

(** The [info] dict built in [VideoThread.run] from one detection. *)
Definition info (charuco_corners : charuco_corners_t)
    (charuco_ids : charuco_ids_t) (frame_shape : Z * Z) : detection_info :=
  {| corners_detected :=
       match charuco_ids with
       | Some ids => Z.of_nat (length ids)
       | None => 0
       end;
     charuco_corners := charuco_corners;
     charuco_ids := charuco_ids;
     frame_shape := frame_shape |}.

End video_thread.

(** ** [Calibration_App.py]: the handlers of [ChArUcoCalibrationGUI] *)

Module Calibration_App.

(** A [QMessageBox] shown to the user, by kind and title; a warning also
    carries its text, without the counts the text formats. *)
Inductive message_box : Type :=
| warning (title : string) (text : string)
| critical (title : string)
| information (title : string).

(** *** Calibration tab *)

(** The attributes the calibration handlers read or write.
    [current_detection] is [None] for the initial empty dict. *)
Record calibration_tab : Type := {
  current_detection : option video_thread.detection_info;
  image_size : option (Z * Z);
  intrinsic : intrinsic_calibration.IntrinsicCalibration;
}.

Definition calibration_tab_init : calibration_tab :=
  {| current_detection := None; image_size := None;
     intrinsic := intrinsic_calibration.new |}.

(** [update_calib_detection(self, info)]. *)
Definition update_calib_detection (self : calibration_tab)
    (info : video_thread.detection_info) : calibration_tab :=
  {| current_detection := Some info;
     image_size :=
       match image_size self with
       | None =>
         Some (snd (video_thread.frame_shape info),
               fst (video_thread.frame_shape info))
       | Some s => Some s
       end;
     intrinsic := intrinsic self |}.

(** What [capture_calibration_frame] shows: a message box, or the new frame
    count written to the labels. *)
Inductive capture_outcome : Type :=
| Box (b : message_box)
| FramesCaptured (frame_count : nat).

(** [self.current_detection.get('corners_detected', 0)]. *)
Definition get_corners_detected (self : calibration_tab) : Z :=
  match current_detection self with
  | Some d => video_thread.corners_detected d
  | None => 0
  end.

(** [capture_calibration_frame(self)]. *)
Definition capture_calibration_frame (self : calibration_tab)
    : capture_outcome * calibration_tab :=
  if (get_corners_detected self <? config.MIN_CHARUCO_CORNERS)%Z then
    (Box (warning "Insufficient Corners" "Need at least 4 corners."), self)
  else
    match current_detection self with
    | Some d =>
      let '(frame_count, intrinsic') :=
        intrinsic_calibration.add_frame (intrinsic self)
          (video_thread.charuco_corners d) (video_thread.charuco_ids d)
          (image_size self) in
      (FramesCaptured frame_count,
       {| current_detection := current_detection self;
          image_size := image_size self;
          intrinsic := intrinsic' |})
    | None => (Box (critical "Capture Error"), self)
    end.

(** [calibration_finished(self, success, message, data)], as far as the
    files go: the record is written only on success. *)
Definition calibration_finished (success : bool) (message : string)
    (data : option intrinsic_calibration.calib_data) (fs : files)
    : message_box * files :=
  if success then
    match data with
    | Some d =>
      let '(_, fs') := intrinsic_calibration.save_calibration d None fs in
      (information "Success", fs')
    | None => (information "Success", json_np.dump JNull fs config.CALIB_FILE)
    end
  else (warning "Calibration Failed" message, fs).

(** The worker's signals delivered to their slots: [progress] only logs,
    [finished] goes to [calibration_finished]. *)
Fixpoint deliver (signals : list intrinsic_calibration.signal) (fs : files)
    : files :=
  match signals with
  | [] => fs
  | intrinsic_calibration.progress _ :: rest => deliver rest fs
  | intrinsic_calibration.finished success message data :: rest =>
    deliver rest (snd (calibration_finished success message data fs))
  end.

(** *** Measurement tab *)

(** The attributes the measurement handlers read or write.  For the frames
    only "is not [None]" is kept; [video_running] stands for
    [self.video_thread and self.video_thread.isRunning()]. *)
Record measurement_tab : Type := {
  video_running : bool;
  current_measure_frame : bool;
  frozen_frame : bool;
  click_points : list pixel;
  measurement : measurements.Measurement;
}.

Definition measurement_tab_init : measurement_tab :=
  {| video_running := false; current_measure_frame := false;
     frozen_frame := false; click_points := [];
     measurement := measurements.new None None None None |}.

(** A line of the measurement log. *)
Inductive log_line : Type :=
| log_failure (message : string)
| log_distance (dist_m dist_cm dist_mm : float).

(** [compute_distance(self)] of the GUI: asks the measurement module and
    derives the millimetre value. *)
Definition compute_distance `{CV2} (self : measurement_tab) : log_line :=
  match fst (measurements.compute_distance (measurement self)) with
  | (true, _, Some dist_m, Some dist_cm, _, _) =>
    let dist_mm := (dist_m * 1000)%float in
    log_distance dist_m dist_cm dist_mm
  | (true, _, _, _, _, _) =>
    log_failure "Error computing distance: unsupported operand type(s) for *: 'NoneType' and 'int'"
  | (false, message, _, _, _, _) => log_failure message
  end.

(** [stop_measurement(self)]. *)
Definition stop_measurement (self : measurement_tab) : measurement_tab :=
  {| video_running := false; current_measure_frame := false;
     frozen_frame := false; click_points := [];
     measurement := measurements.reset_points (measurement self) |}.

(** [start_measurement(self)]; [loaded] is what [load_saved_calibration]
    found in the two files, [None] when it returned [False]. *)
Definition start_measurement (self : measurement_tab)
    (loaded : option (mat3 * ndarray * vec3 * vec3)) : measurement_tab :=
  match loaded with
  | None => self
  | Some (camera_matrix, dist_coeffs, rvec, tvec) =>
    let self := if video_running self then stop_measurement self else self in
    {| video_running := true; current_measure_frame := false;
       frozen_frame := false; click_points := [];
       measurement :=
         measurements.set_calibration (measurement self)
           camera_matrix dist_coeffs rvec tvec |}
  end.

(** [store_measurement_frame(self, info)]. *)
Definition store_measurement_frame (self : measurement_tab) : measurement_tab :=
  {| video_running := video_running self; current_measure_frame := true;
     frozen_frame := frozen_frame self; click_points := click_points self;
     measurement := measurement self |}.

(** [Measurement.undistort_frame] raises when the calibration is not set. *)
Definition undistort_frame (m : measurements.Measurement) : res unit :=
  match measurements.camera_matrix m, measurements.dist_coeffs m with
  | Some _, Some _ => Ok ()
  | _, _ => Raise (ValueError "Camera calibration not set")
  end.

(** [freeze_frame(self)]; an exception leaves the handler before any of the
    attributes kept here is written. *)
Definition freeze_frame (self : measurement_tab) : res measurement_tab :=
  if video_running self then
    _ ← (if current_measure_frame self
         then undistort_frame (measurement self) else Ok ());
    Ok {| video_running := false;
          current_measure_frame := current_measure_frame self;
          frozen_frame := true; click_points := [];
          measurement := measurements.reset_points (measurement self) |}
  else Ok self.

(** [measurement_click(self, event)], from the point where the image
    coordinates [(img_x, img_y)] of the click are known; the second component
    is the log line written when the second point triggers the distance. *)
Definition measurement_click `{CV2} (self : measurement_tab) (img : pixel)
    : measurement_tab * option log_line :=
  if negb (frozen_frame self) then (self, None)
  else if (2 <=? length (click_points self))%nat then (self, None)
  else
    let click_points' := (click_points self ++ [img])%list in
    let '(_, measurement') :=
      measurements.add_click_point (measurement self) img in
    let self' :=
      {| video_running := video_running self;
         current_measure_frame := current_measure_frame self;
         frozen_frame := frozen_frame self; click_points := click_points';
         measurement := measurement' |} in
    if (length click_points' =? 2)%nat
    then (self', Some (compute_distance self'))
    else (self', None).

(** [reset_measurement(self)]. *)
Definition reset_measurement (self : measurement_tab) : measurement_tab :=
  {| video_running := video_running self;
     current_measure_frame := current_measure_frame self;
     frozen_frame := frozen_frame self; click_points := [];
     measurement := measurements.reset_points (measurement self) |}.

(** The handlers of the other tabs touch only the video thread. *)
Definition set_video (self : measurement_tab) (running : bool)
    : measurement_tab :=
  {| video_running := running;
     current_measure_frame := current_measure_frame self;
     frozen_frame := frozen_frame self; click_points := click_points self;
     measurement := measurement self |}.

(** One user action or signal on the measurement tab. *)
Inductive action : Type :=
| StartMeasurement (loaded : option (mat3 * ndarray * vec3 * vec3))
| StoreFrame
| FreezeFrame
| Click (img : pixel)
| ResetMeasurement
| StopMeasurement
| OtherTab (running : bool).

Definition handle `{CV2} (self : measurement_tab) (a : action)
    : measurement_tab :=
  match a with
  | StartMeasurement loaded => start_measurement self loaded
  | StoreFrame => store_measurement_frame self
  | FreezeFrame =>
    match freeze_frame self with
    | Ok self' => self'
    | Raise _ => self
    end
  | Click img => fst (measurement_click self img)
  | ResetMeasurement => reset_measurement self
  | StopMeasurement => stop_measurement self
  | OtherTab running => set_video self running
  end.

(** A measurement session: the actions handled in order from the state the
    constructor leaves. *)
Definition session `{CV2} (actions : list action) : measurement_tab :=
  fold_left handle actions measurement_tab_init.

(** While a frame is frozen the GUI's own list of clicks and the measurement
    module's list are the same list, and the module never holds more than two
    clicks. *)
Definition session_inv (s : measurement_tab) : Prop :=
  (frozen_frame s = true ->
   click_points s = measurements.click_points (measurement s))
  /\ (length (measurements.click_points (measurement s)) <= 2)%nat.

(** [update_extrin_detection(self, info)]: the extrinsics tab writes the same
    [current_detection] attribute, and nothing else of the calibration tab. *)
Definition update_extrin_detection (self : calibration_tab)
    (info : video_thread.detection_info) : calibration_tab :=
  {| current_detection := Some info;
     image_size := image_size self;
     intrinsic := intrinsic self |}.

(** *** The Calibrate button *)

(** What [run_calibration] of the GUI does: a message box, or the worker it
    starts. *)
Inductive calibrate_outcome : Type :=
| CalibrateBox (b : message_box)
| WorkerStarted (worker : intrinsic_calibration.CalibrationWorker).

(** [run_calibration(self)] of the GUI. *)
Definition run_calibration (self : calibration_tab) (board : CharucoBoard)
    : calibrate_outcome :=
  if (intrinsic_calibration.get_frame_count (intrinsic self) <? 8)%nat then
    CalibrateBox (warning "Insufficient Frames"
                    "Collect at least 8 frames for calibration")
  else
    match intrinsic_calibration.run_calibration (intrinsic self) board with
    | Ok worker => WorkerStarted worker
    | Raise _ => CalibrateBox (critical "Calibration Error")
    end.

(** From the click on Calibrate to the files: the worker started by
    [run_calibration] runs and its signals reach [calibration_finished]. *)
Definition calibrate `{Aruco} (self : calibration_tab) (board : CharucoBoard)
    (fs : files) : files :=
  match run_calibration self board with
  | WorkerStarted worker => deliver (intrinsic_calibration.run worker) fs
  | CalibrateBox _ => fs
  end.

(** *** Loading what was saved *)

(** The calibration attributes of the GUI, as loaded from the two files. *)
Record calibration_fields : Type := {
  camera_matrix : option ndarray;
  dist_coeffs : option ndarray;
  rvec : option vec3;
  tvec : option vec3;
}.

(** [os.path.exists(path)]. *)
Definition exists_file (fs : files) (path : string) : bool :=
  bool_decide (is_Some (fs !! path)).

(** [load_saved_calibration(self)]: the value returned and the attributes
    afterwards.  An exception raised while loading is caught and gives
    [False]; what was assigned before it stays assigned. *)
Definition load_saved_calibration (self : calibration_fields) (fs : files)
    : bool * calibration_fields :=
  if exists_file fs config.CALIB_FILE then
    match intrinsic_calibration.load_calibration None fs with
    | Ok (camera_matrix', dist_coeffs') =>
      let self1 :=
        {| camera_matrix := Some camera_matrix';
           dist_coeffs := Some dist_coeffs';
           rvec := rvec self; tvec := tvec self |} in
      if exists_file fs config.EXTRINSICS_FILE then
        match extrinsic_calibration.load_extrinsics None fs with
        | Ok (rvec', tvec') =>
          (true,
           {| camera_matrix := Some camera_matrix';
              dist_coeffs := Some dist_coeffs';
              rvec := Some rvec'; tvec := Some tvec' |})
        | Raise _ => (false, self1)
        end
      else (false, self1)
    | Raise _ => (false, self)
    end
  else (false, self).

(** *** Extrinsics tab *)


End Calibration_App.

(** ** The metrology engine as the specification words it

    Section 4.5 of the specification, step by step, on the same float64
    operations.  The theorems below compare [measurements.compute_distance]
    with this definition. *)

Module MetrologyEngine.

Inductive error : Type :=
| InsufficientPoints
| IntrinsicsNotSet
| ExtrinsicsNotSet
| RayParallelToPlane.

Record MeasurementResult : Type := {
  point1 : vec3;
  point2 : vec3;
  distance_m : float;
  distance_cm : float;
  distance_mm : float;
}.

(** Step 1: [r = ((px - cx)/fx, (py - cy)/fy, 1)] with [fx = K[0][0]],
    [fy = K[1][1]], [cx = K[0][2]], [cy = K[1][2]]. *)
Definition ray (K : mat3) (p : pixel) : vec3 :=
  let fx := v0 (row0 K) in
  let fy := v1 (row1 K) in
  let cx := v2 (row0 K) in
  let cy := v2 (row1 K) in
  Vec3 ((np.nearest_float64 (fst p) - cx) / fx)%float
       ((np.nearest_float64 (snd p) - cy) / fy)%float
       1%float.

(** Step 2: the normal is the third column of [R], the offset is
    [d = -(normal . t)]. *)
Definition normal (R : mat3) : vec3 := np.col2 R.
Definition offset (R : mat3) (t : vec3) : float :=
  PrimFloat.opp (np.dot (normal R) t).

(** The test of step 3: [|normal . r| < 1e-9]. *)
Definition parallel (K R : mat3) (p : pixel) : bool :=
  (PrimFloat.abs (np.dot (normal R) (ray K p)) <? 1e-9)%float.

(** Steps 3 and 4: [s = -d / (normal . r)], [Xc = s r],
    [Xb = R^T (Xc - t)], and the point kept is [(Xb.x, Xb.y, 0)]. *)
Definition project (K R : mat3) (t : vec3) (p : pixel) : error + vec3 :=
  let r := ray K p in
  if parallel K R p then inl RayParallelToPlane
  else
    let s := (PrimFloat.opp (offset R t) / np.dot (normal R) r)%float in
    let Xc := np.scale s r in
    let Xb := np.matvec (np.transpose R) (np.sub Xc t) in
    inr (Vec3 (v0 Xb) (v1 Xb) 0%float).

(** Step 5: the norm of [Xb1 - Xb2], in metres, centimetres, millimetres. *)
Definition computeDistance (K R : mat3) (t : vec3) (p1 p2 : pixel)
    : error + MeasurementResult :=
  match project K R t p1 with
  | inl e => inl e
  | inr Xb1 =>
    match project K R t p2 with
    | inl e => inl e
    | inr Xb2 =>
      let dist := np.linalg_norm (np.sub Xb1 Xb2) in
      inr {| point1 := Xb1; point2 := Xb2; distance_m := dist;
             distance_cm := (dist * 100)%float;
             distance_mm := (dist * 1000)%float |}
    end
  end.

End MetrologyEngine.

(** ** Concrete cameras, poses and sessions used in the examples *)

Module examples.

Definition identity : mat3 :=
  Mat3 (Vec3 1 0 0) (Vec3 0 1 0) (Vec3 0 0 1).

(** A quarter turn about the camera's x axis: the board plane contains the
    optical axis. *)
Definition quarter_turn_x : mat3 :=
  Mat3 (Vec3 1 0 0) (Vec3 0 0 (-1)) (Vec3 0 1 0).

(** An OpenCV whose [Rodrigues] answers [R] and whose pose solver answers
    [pnp], for examples that use one rotation vector and one view. *)
Definition cv2_answering (R : mat3) (pnp : pnp_result) : CV2 :=
  {| Rodrigues := fun _ => R; solvePnP := fun _ _ _ _ => pnp |}.

Definition cv2_facing : CV2 :=
  cv2_answering identity (Ok (true, Vec3 0 0 0, Vec3 0 0 1)).

Definition cv2_edge_on : CV2 :=
  cv2_answering quarter_turn_x (Ok (false, Vec3 0 0 0, Vec3 0 0 0)).

(** fx = fy = 800, principal point (320, 240). *)
Definition K800 : mat3 :=
  Mat3 (Vec3 800 0 320) (Vec3 0 800 240) (Vec3 0 0 1).

Definition no_distortion : ndarray := Arr [Arr [Num 0; Num 0; Num 0; Num 0; Num 0]].

(** A calibrated measurement object holding the given clicks; the board
    plane is one metre in front of the camera when it is faced. *)
Definition calibrated (clicks : list pixel) : measurements.Measurement :=
  {| measurements.camera_matrix := Some K800;
     measurements.dist_coeffs := Some no_distortion;
     measurements.rvec := Some (Vec3 0 0 0);
     measurements.tvec := Some (Vec3 0 0 1);
     measurements.click_points := clicks |}.

Definition two_clicks : measurements.Measurement :=
  calibrated [(320, 240); (360, 240)]%Z.

Definition three_clicks : measurements.Measurement :=
  calibrated [(320, 240); (360, 240); (100, 100)]%Z.

(** An ArUco module whose calibration answers [fit] and whose formatting
    of the RMS gives [text]. *)
Definition aruco_answering (fit : res (float * ndarray * ndarray))
    (text : string) : Aruco :=
  {| calibrateCameraCharuco := fun _ _ _ _ => fit; format_4f := fun _ => text |}.

Definition K800_array : ndarray :=
  Arr [Arr [Num 800; Num 0; Num 320]; Arr [Num 0; Num 800; Num 240];
       Arr [Num 0; Num 0; Num 1]].

(** Four corners of the board, seen at full resolution or not at all. *)
Definition four_corners : charuco_corners_t :=
  Some [(10, 10); (20, 10); (10, 20); (20, 20)]%float.
Definition four_ids : charuco_ids_t := Some [0; 1; 2; 3]%Z.
Definition three_corners : charuco_corners_t :=
  Some [(10, 10); (20, 10); (10, 20)]%float.
Definition three_ids : charuco_ids_t := Some [0; 1; 2]%Z.

Definition board_2x2 : CharucoBoard :=
  {| getChessboardCorners :=
       [Vec3 0.01 0.01 0; Vec3 0.02 0.01 0; Vec3 0.01 0.02 0; Vec3 0.02 0.02 0] |}.

(** A worker over eight such views taken at 640x480. *)
Definition worker : intrinsic_calibration.CalibrationWorker :=
  {| intrinsic_calibration.corners := repeat four_corners 8;
     intrinsic_calibration.ids := repeat four_ids 8;
     intrinsic_calibration.board := board_2x2;
     intrinsic_calibration.w_image_size := Some (640, 480)%Z |}.

(** The calibration tab after one capture from a 640x480 frame. *)
Definition one_frame_640x480 : Calibration_App.calibration_tab :=
  snd (Calibration_App.capture_calibration_frame
         (Calibration_App.update_calib_detection
            Calibration_App.calibration_tab_init
            (video_thread.info four_corners four_ids (480, 640)%Z))).

(** Two calibration records that differ only in RMS and image size. *)
Definition model_a : intrinsic_calibration.calib_data :=
  {| intrinsic_calibration.cd_camera_matrix := json_np.tolist K800_array;
     intrinsic_calibration.cd_dist_coeffs := json_np.tolist no_distortion;
     intrinsic_calibration.cd_rms := 0.5%float;
     intrinsic_calibration.cd_image_size := Some (640, 480)%Z |}.
Definition model_b : intrinsic_calibration.calib_data :=
  {| intrinsic_calibration.cd_camera_matrix := json_np.tolist K800_array;
     intrinsic_calibration.cd_dist_coeffs := json_np.tolist no_distortion;
     intrinsic_calibration.cd_rms := 1.5%float;
     intrinsic_calibration.cd_image_size := Some (1280, 960)%Z |}.

(** A pose solver object with and without intrinsics. *)
Definition with_intrinsics : extrinsic_calibration.ExtrinsicCalibration :=
  extrinsic_calibration.new (Some K800) (Some no_distortion).
Definition without_intrinsics : extrinsic_calibration.ExtrinsicCalibration :=
  extrinsic_calibration.new None None.

(** A pose solver object that already holds a pose. *)
Definition posed : extrinsic_calibration.ExtrinsicCalibration :=
  {| extrinsic_calibration.camera_matrix := Some K800;
     extrinsic_calibration.dist_coeffs := Some no_distortion;
     extrinsic_calibration.rvec := Some (Vec3 0.1 0.2 0.3);
     extrinsic_calibration.tvec := Some (Vec3 0 0 0.5) |}.

(** A session: start with the calibration found, a frame arrives, freeze,
    then the given clicks. *)
Definition clicking (clicks : list pixel) : list Calibration_App.action :=
  [Calibration_App.StartMeasurement
     (Some (K800, no_distortion, Vec3 0 0 0, Vec3 0 0 1));
   Calibration_App.StoreFrame; Calibration_App.FreezeFrame]
  ++ map Calibration_App.Click clicks.

End examples.

(** ** [measurements.py]: the loader of both files *)

Module measurements_files.

(** [Measurement.load_calibrations(calib_path, extrin_path)]. *)
Definition load_calibrations (calib_path extrin_path : option string)
    (fs : files) : res (ndarray * ndarray * vec3 * vec3) :=
  let calib_path := default config.CALIB_FILE calib_path in
  let extrin_path := default config.EXTRINSICS_FILE extrin_path in
  calib_data ← json_np.load fs calib_path;
  cm ← json_np.getitem calib_data "camera_matrix";
  camera_matrix ← json_np.array cm;
  dc ← json_np.getitem calib_data "dist_coeffs";
  dist_coeffs ← json_np.array dc;
  extrin_data ← json_np.load fs extrin_path;
  r ← json_np.getitem extrin_data "rvec";
  ra ← json_np.array r;
  rvec ← json_np.reshape_3_1 ra;
  t ← json_np.getitem extrin_data "tvec";
  ta ← json_np.array t;
  tvec ← json_np.reshape_3_1 ta;
  Ok (camera_matrix, dist_coeffs, rvec, tvec).

End measurements_files.

(** ** [camera_utils.py] *)

Module camera_utils.

(** The OpenCV capture backends the module chooses from. *)
Inductive backend : Type := CAP_DSHOW | CAP_AVFOUNDATION | CAP_V4L2.

(** [get_camera_backend()], by the value of [platform.system()]. *)
Definition get_camera_backend (system : string) : backend :=
  if String.eqb system "Windows" then CAP_DSHOW
  else if String.eqb system "Darwin" then CAP_AVFOUNDATION
  else CAP_V4L2.

(** [get_available_cameras(max_test)].  [opens i backend] is what
    [cv2.VideoCapture(i, backend).isOpened()] gives, or the exception the
    constructor raised, which the loop skips. *)
Definition get_available_cameras (opens : Z -> backend -> res bool)
    (system : string) (max_test : Z) : list Z :=
  let backend := get_camera_backend system in
  fold_left
    (fun (available_cameras : list Z) i =>
       match opens i backend with
       | Ok true => (available_cameras ++ [i])%list
       | Ok false => available_cameras
       | Raise _ => available_cameras
       end)
    (map Z.of_nat (seq 0 (Z.to_nat max_test))) [].

End camera_utils.

(** ** Runs of several calls *)

Module runs.

(** One frame handed to [add_frame]: corners, ids and image size. *)
Definition frame : Type :=
  (charuco_corners_t * charuco_ids_t * option (Z * Z))%type.

(** A call on the correspondence store. *)
Inductive store_call : Type :=
| AddFrame (f : frame)
| ClearFrames.

Definition call (self : intrinsic_calibration.IntrinsicCalibration)
    (c : store_call) : intrinsic_calibration.IntrinsicCalibration :=
  match c with
  | AddFrame (corners, ids, size) =>
    snd (intrinsic_calibration.add_frame self corners ids size)
  | ClearFrames => intrinsic_calibration.clear_frames self
  end.

(** The store after the calls, in order, on a new object. *)
Definition store_after (calls : list store_call)
    : intrinsic_calibration.IntrinsicCalibration :=
  fold_left call calls intrinsic_calibration.new.

(** The first image size that is not [None]. *)
Fixpoint first_size (frames : list frame) : option (Z * Z) :=
  match frames with
  | [] => None
  | (_, _, Some s) :: _ => Some s
  | (_, _, None) :: rest => first_size rest
  end.

(** What reaches the attributes of the calibration tab: a detection arrives
    from the video thread while the calibration tab or the extrinsics tab owns
    the camera, or the user presses Capture. *)
Inductive calibration_action : Type :=
| Detection (charuco_corners : charuco_corners_t) (charuco_ids : charuco_ids_t)
    (frame_shape : Z * Z)
| ExtrinsicsDetection (charuco_corners : charuco_corners_t)
    (charuco_ids : charuco_ids_t) (frame_shape : Z * Z)
| Capture.

Definition calibration_handle (self : Calibration_App.calibration_tab)
    (a : calibration_action) : Calibration_App.calibration_tab :=
  match a with
  | Detection corners ids shape =>
    Calibration_App.update_calib_detection self (video_thread.info corners ids shape)
  | ExtrinsicsDetection corners ids shape =>
    Calibration_App.update_extrin_detection self
      (video_thread.info corners ids shape)
  | Capture => snd (Calibration_App.capture_calibration_frame self)
  end.

(** The actions that come from the calibration tab itself. *)
Definition own_action (a : calibration_action) : bool :=
  match a with
  | ExtrinsicsDetection _ _ _ => false
  | _ => true
  end.

Definition calibration_session (actions : list calibration_action)
    : Calibration_App.calibration_tab :=
  fold_left calibration_handle actions Calibration_App.calibration_tab_init.

(** The shape of the first detection that reached the calibration tab, as
    [(width, height)]. *)
Fixpoint first_detection_size (actions : list calibration_action)
    : option (Z * Z) :=
  match actions with
  | [] => None
  | Detection _ _ shape :: _ => Some (snd shape, fst shape)
  | _ :: rest => first_detection_size rest
  end.

End runs.

(** * Properties *)

(** ** Facts of binary64 arithmetic *)

Section Binary64.

Lemma SFmul_self_abs (prec emax : Z) (a : spec_float) :
  SFmul prec emax a a = SFmul prec emax (SFabs a) (SFabs a).
Proof.
  destruct a as [s|s| |s m e]; simpl; try reflexivity; destruct s; reflexivity.
Qed.

Lemma binary_round_aux_sign (prec emax : Z) (s : bool) m e l :
  SFabs (binary_round_aux prec emax s m e l)
  = SFabs (binary_round_aux prec emax (negb s) m e l).
Proof.
  unfold binary_round_aux.
  destruct (shr_fexp prec emax m e l) as [mrs' e'].
  destruct (shr_fexp prec emax _ e' loc_Exact) as [mrs'' e''].
  destruct (shr_m mrs''); try reflexivity.
  destruct (Z.leb e'' (Z.sub emax prec)); reflexivity.
Qed.

Lemma binary_round_sign (prec emax : Z) m e :
  SFabs (binary_round prec emax false m e)
  = SFabs (binary_round prec emax true m e).
Proof.
  unfold binary_round. destruct (shl_align m e _) as [mz ez].
  apply (binary_round_aux_sign prec emax false).
Qed.

Lemma binary_normalize_opp (prec emax : Z) m e sz :
  SFabs (binary_normalize prec emax (Z.opp m) e sz)
  = SFabs (binary_normalize prec emax m e sz).
Proof.
  destruct m; simpl; auto using binary_round_sign, eq_sym.
Qed.

Lemma SFsub_abs_sym (prec emax : Z) (x y : spec_float) :
  SFabs (SFsub prec emax x y) = SFabs (SFsub prec emax y x).
Proof.
  destruct x as [sx|sx| |sx mx ex], y as [sy|sy| |sy my ey]; simpl;
    try reflexivity; try (destruct sx, sy; reflexivity).
  change IntDef.Z.min with Z.min.
  rewrite (Z.min_comm ey ex).
  set (a := cond_Zopp sx _). set (b := cond_Zopp sy _).
  replace (Z.sub b a) with (Z.opp (Z.sub a b)) by lia.
  now rewrite binary_normalize_opp.
Qed.

(** The square of a difference does not depend on the order of the operands,
    rounding included. *)
Lemma sub_sqr_sym (a b : float) :
  ((a - b) * (a - b) = (b - a) * (b - a))%float.
Proof.
  rewrite <- (SF2Prim_Prim2SF ((a - b) * (a - b))).
  rewrite <- (SF2Prim_Prim2SF ((b - a) * (b - a))).
  rewrite !mul_spec, !sub_spec. unfold SF64mul, SF64sub.
  rewrite SFmul_self_abs, (SFmul_self_abs _ _ (SFsub _ _ (Prim2SF b) _)).
  now rewrite (SFsub_abs_sym _ _ (Prim2SF a)).
Qed.

(** A float that compares equal to zero is one of the two zeros. *)
Lemma eqb_zero_inv (x : float) :
  (x =? 0)%float = true -> x = 0%float \/ x = (-0)%float.
Proof.
  rewrite FloatAxioms.eqb_spec.
  replace (Prim2SF 0) with (S754_zero false) by reflexivity.
  intros E. rewrite <- (SF2Prim_Prim2SF x).
  destruct (Prim2SF x) as [s|s| |s m e]; try destruct s; try discriminate E.
  - right; reflexivity.
  - left; reflexivity.
Qed.

Lemma abs_zero_small (x : float) :
  (x =? 0)%float = true -> (PrimFloat.abs x <? 1e-9)%float = true.
Proof.
  intros E. destruct (eqb_zero_inv x E) as [-> | ->]; reflexivity.
Qed.

(** Finite floats: neither infinite nor NaN.  An operation whose result is
    finite had finite operands (the dividend, for a division). *)
Lemma SFcompare_refl_finite s m e :
  SFcompare (S754_finite s m e) (S754_finite s m e) = Some Eq.
Proof.
  destruct s; simpl; rewrite Z.compare_refl, ?Pos.compare_cont_refl, ?Pos.compare_refl; try reflexivity.
Qed.

Lemma is_finite_SF (x : float) :
  PrimFloat.is_finite x = true <->
  match Prim2SF x with
  | S754_zero _ | S754_finite _ _ _ => True
  | _ => False
  end.
Proof.
  unfold PrimFloat.is_finite, PrimFloat.is_nan, PrimFloat.is_infinity.
  rewrite !FloatAxioms.eqb_spec, abs_spec.
  replace (Prim2SF infinity) with (S754_infinity false) by reflexivity.
  unfold SFeqb.
  destruct (Prim2SF x) as [s|s| |s m e].
  - destruct s; simpl; tauto.
  - destruct s; simpl; split; (discriminate || tauto).
  - simpl; split; (discriminate || tauto).
  - rewrite SFcompare_refl_finite. simpl. tauto.
Qed.

Lemma sub_finite (a b : float) :
  PrimFloat.is_finite (a - b) = true ->
  PrimFloat.is_finite a = true /\ PrimFloat.is_finite b = true.
Proof.
  rewrite !is_finite_SF, sub_spec. unfold SF64sub.
  destruct (Prim2SF a) as [sa|sa| |sa ma ea], (Prim2SF b) as [sb|sb| |sb mb eb];
    simpl; try tauto; try (destruct sa, sb; simpl; tauto).
Qed.

Lemma add_finite (a b : float) :
  PrimFloat.is_finite (a + b) = true ->
  PrimFloat.is_finite a = true /\ PrimFloat.is_finite b = true.
Proof.
  rewrite !is_finite_SF, add_spec. unfold SF64add.
  destruct (Prim2SF a) as [sa|sa| |sa ma ea], (Prim2SF b) as [sb|sb| |sb mb eb];
    simpl; try tauto; try (destruct sa, sb; simpl; tauto).
Qed.

Lemma mul_finite (a b : float) :
  PrimFloat.is_finite (a * b) = true ->
  PrimFloat.is_finite a = true /\ PrimFloat.is_finite b = true.
Proof.
  rewrite !is_finite_SF, mul_spec. unfold SF64mul.
  destruct (Prim2SF a) as [sa|sa| |sa ma ea], (Prim2SF b) as [sb|sb| |sb mb eb];
    simpl; try tauto; try (destruct sa, sb; simpl; tauto).
Qed.

Lemma div_finite (a b : float) :
  PrimFloat.is_finite (a / b) = true -> PrimFloat.is_finite a = true.
Proof.
  rewrite !is_finite_SF, div_spec. unfold SF64div.
  destruct (Prim2SF a) as [sa|sa| |sa ma ea], (Prim2SF b) as [sb|sb| |sb mb eb];
    simpl; try tauto; try (destruct sa, sb; simpl; tauto).
Qed.

Lemma abs_small_finite (x : float) :
  (PrimFloat.abs x <? 1e-9)%float = true -> PrimFloat.is_finite x = true.
Proof.
  rewrite ltb_spec, abs_spec, is_finite_SF.
  replace (Prim2SF 1e-9) with (S754_finite false 4835703278458517 (-82)) by reflexivity.
  destruct (Prim2SF x) as [s|s| |s m e]; try tauto; try (destruct s; discriminate).
  discriminate.
Qed.

Lemma finite_not_infinity (x : float) :
  PrimFloat.is_finite x = true -> PrimFloat.is_infinity x = false.
Proof.
  unfold PrimFloat.is_finite.
  destruct (PrimFloat.is_nan x), (PrimFloat.is_infinity x); simpl; congruence.
Qed.

End Binary64.

Lemma linalg_norm_sub_sym (a b : vec3) :
  np.linalg_norm (np.sub a b) = np.linalg_norm (np.sub b a).
Proof.
  unfold np.linalg_norm, np.dot, np.sub; simpl.
  now rewrite (sub_sqr_sym (v0 a)), (sub_sqr_sym (v1 a)), (sub_sqr_sym (v2 a)).
Qed.

(** ** The measurement module *)

Section MeasurementFacts.

Context `{cv : CV2}.

(** The two conversions of [image_to_plane]. *)
Lemma float_of_int_fits (z : Z) :
  np.fits_float64 z = true -> np.float_of_int z = Ok (np.nearest_float64 z).
Proof. intros H. unfold np.float_of_int. now rewrite H. Qed.

Lemma float_of_int_overflow (z : Z) :
  np.fits_float64 z = false ->
  np.float_of_int z = Raise (OverflowError "int too large to convert to float").
Proof. intros H. unfold np.float_of_int. now rewrite H. Qed.

(** A pixel whose ray meets the test [|n . r| < 1e-9] has coordinates that
    convert: an infinite coordinate makes [n . r] infinite or NaN. *)
Lemma guard_fits K n pt :
  (PrimFloat.abs (np.dot n (MetrologyEngine.ray K pt)) <? 1e-9)%float = true ->
  pixel_fits pt = true.
Proof.
  intros Hg. apply abs_small_finite in Hg.
  unfold np.dot, MetrologyEngine.ray in Hg; cbn [v0 v1 v2] in Hg.
  apply add_finite in Hg as [Hg _]. apply add_finite in Hg as [Hx Hy].
  apply mul_finite in Hx as [_ Hx]. apply mul_finite in Hy as [_ Hy].
  apply div_finite, sub_finite in Hx as [Hx _].
  apply div_finite, sub_finite in Hy as [Hy _].
  unfold pixel_fits, np.fits_float64.
  now rewrite (finite_not_infinity _ Hx), (finite_not_infinity _ Hy).
Qed.

(** A coordinate that does not convert ends [image_to_plane] before the
    test. *)
Lemma image_to_plane_overflow self K pt R n d :
  measurements.camera_matrix self = Some K ->
  pixel_fits pt = false ->
  measurements.image_to_plane self pt R n d
  = Raise (OverflowError "int too large to convert to float").
Proof.
  intros HK Hf. unfold measurements.image_to_plane. rewrite HK; simpl.
  unfold pixel_fits in Hf. unfold np.float_of_int.
  destruct (np.fits_float64 (fst pt)); simpl; [|reflexivity].
  simpl in Hf. now rewrite Hf.
Qed.

(** With the normal and offset that [compute_distance] passes,
    [image_to_plane] on a pixel that converts is the projection of steps 1
    to 4. *)
Lemma image_to_plane_project self K t R pt :
  measurements.camera_matrix self = Some K ->
  measurements.tvec self = Some t ->
  measurements.image_to_plane self pt R
    (MetrologyEngine.normal R) (MetrologyEngine.offset R t)
  = if pixel_fits pt then
      match MetrologyEngine.project K R t pt with
      | inl _ => Raise (RuntimeError "Ray nearly parallel to plane")
      | inr Xb => Ok Xb
      end
    else Raise (OverflowError "int too large to convert to float").
Proof.
  intros HK Ht.
  destruct (pixel_fits pt) eqn:Hf;
    [|now apply (image_to_plane_overflow self K)].
  unfold pixel_fits in Hf. apply andb_prop in Hf as [Hx Hy].
  unfold measurements.image_to_plane, MetrologyEngine.project,
    MetrologyEngine.parallel, MetrologyEngine.ray.
  rewrite HK, Ht, (float_of_int_fits _ Hx), (float_of_int_fits _ Hy); simpl.
  destruct (PrimFloat.ltb _ _); reflexivity.
Qed.

(** The guard of [image_to_plane], for any normal and offset. *)
Lemma image_to_plane_guard self K pt R n d :
  measurements.camera_matrix self = Some K ->
  (PrimFloat.abs (np.dot n (MetrologyEngine.ray K pt)) <? 1e-9)%float = true ->
  measurements.image_to_plane self pt R n d
  = Raise (RuntimeError "Ray nearly parallel to plane").
Proof.
  intros HK Hg. pose proof (guard_fits K n pt Hg) as Hf.
  unfold pixel_fits in Hf. apply andb_prop in Hf as [Hx Hy].
  unfold measurements.image_to_plane.
  rewrite HK, (float_of_int_fits _ Hx), (float_of_int_fits _ Hy); simpl.
  unfold MetrologyEngine.ray in Hg. now rewrite Hg.
Qed.

Lemma image_to_plane_ok_guard self K pt R n d Xb :
  measurements.camera_matrix self = Some K ->
  measurements.image_to_plane self pt R n d = Ok Xb ->
  (PrimFloat.abs (np.dot n (MetrologyEngine.ray K pt)) <? 1e-9)%float = false.
Proof.
  intros HK. unfold measurements.image_to_plane, np.float_of_int.
  rewrite HK; simpl.
  destruct (np.fits_float64 (fst pt)); simpl; [|discriminate].
  destruct (np.fits_float64 (snd pt)); simpl; [|discriminate].
  unfold MetrologyEngine.ray.
  destruct (PrimFloat.ltb _ _); [discriminate | reflexivity].
Qed.

(** A point is returned only for a pixel that converts. *)
Lemma image_to_plane_ok_fits self K pt R n d Xb :
  measurements.camera_matrix self = Some K ->
  measurements.image_to_plane self pt R n d = Ok Xb ->
  pixel_fits pt = true.
Proof.
  intros HK H. destruct (pixel_fits pt) eqn:Hf; [reflexivity|].
  rewrite (image_to_plane_overflow self K) in H by assumption. discriminate H.
Qed.

(** The [try] block on a calibrated object with at least two clicks: the
    first click is converted and projected, then the second. *)
Lemma compute_distance_try_project self K rv t p1 p2 rest :
  measurements.camera_matrix self = Some K ->
  measurements.rvec self = Some rv ->
  measurements.tvec self = Some t ->
  measurements.click_points self = p1 :: p2 :: rest ->
  measurements.compute_distance_try self
  = if pixel_fits p1 then
      match MetrologyEngine.project K (Rodrigues rv) t p1 with
      | inl _ => Raise (RuntimeError "Ray nearly parallel to plane")
      | inr Xb1 =>
        if pixel_fits p2 then
          match MetrologyEngine.project K (Rodrigues rv) t p2 with
          | inl _ => Raise (RuntimeError "Ray nearly parallel to plane")
          | inr Xb2 =>
            let dist := np.linalg_norm (np.sub Xb2 Xb1) in
            Ok (dist, (dist * 100)%float, Xb1, Xb2)
          end
        else Raise (OverflowError "int too large to convert to float")
      end
    else Raise (OverflowError "int too large to convert to float").
Proof.
  intros HK Hr Ht Hp. unfold measurements.compute_distance_try.
  rewrite Hr, Ht, Hp; simpl.
  fold (MetrologyEngine.normal (Rodrigues rv)).
  fold (MetrologyEngine.offset (Rodrigues rv) t).
  rewrite !(image_to_plane_project self K t) by assumption.
  destruct (pixel_fits p1); simpl; [|reflexivity].
  destruct (MetrologyEngine.project K (Rodrigues rv) t p1); simpl; [reflexivity|].
  destruct (pixel_fits p2); simpl; [|reflexivity].
  destruct (MetrologyEngine.project K (Rodrigues rv) t p2); reflexivity.
Qed.

(** A parallel ray, in the words of the specification, belongs to a pixel
    that converts. *)
Lemma parallel_fits K R pt :
  MetrologyEngine.parallel K R pt = true -> pixel_fits pt = true.
Proof. apply guard_fits. Qed.

(** [compute_distance] never writes to the object. *)
Lemma compute_distance_reads_only self :
  snd (measurements.compute_distance self) = self.
Proof.
  unfold measurements.compute_distance.
  destruct (Nat.ltb _ _); [reflexivity|].
  destruct (measurements.camera_matrix self), (measurements.dist_coeffs self);
    try reflexivity.
  destruct (measurements.rvec self), (measurements.tvec self); try reflexivity.
  destruct (measurements.compute_distance_try self) as [[[[? ?] ?] ?]|?];
    reflexivity.
Qed.

End MeasurementFacts.

(** The conversion fails from [2^1024 - 2^970] on, the first integer that
    rounds to [2^1024]; a click with such a coordinate ends [compute_distance]
    there. *)
Example fits_float64_threshold :
  np.fits_float64 (2 ^ 1024 - 2 ^ 970 - 1) = true
  /\ np.fits_float64 (2 ^ 1024 - 2 ^ 970) = false
  /\ np.fits_float64 (- 2 ^ 1024) = false.
Proof. vm_compute. auto. Qed.

Example compute_distance_overflow :
  fst (measurements.compute_distance (H := examples.cv2_facing)
         (examples.calibrated [(2 ^ 1024, 240); (320, 240)]%Z))
  = measurements.failure
      "Error computing distance: int too large to convert to float".
Proof. vm_compute. reflexivity. Qed.

(** C1. On a measurement object holding a camera matrix [K], distortion
    coefficients, a pose [(rvec, tvec)] and the two clicks [p1], [p2], both
    pixels with coordinates that convert to float64, [compute_distance] is the
    ray-plane algorithm of the specification: its outcome is the one
    [MetrologyEngine.computeDistance] defines from the rays
    [((px - cx)/fx, (py - cy)/fy, 1)], the third column of [R], the offset
    [-(normal . t)], [s = -d/(normal . r)], [Xb = R^T (s r - t)] with a zero Z,
    and the norm of [Xb1 - Xb2]; the distortion coefficients do not enter; the
    centimetre value is the distance times 100 and the millimetre value the GUI
    logs is the distance times 1000.  A coordinate too large for float64 (of
    magnitude 2^1024 or so, no pixel of an image) ends the computation with
    the failure ['int too large to convert to float'] at the first click it
    reaches. *)
Theorem compute_distance_ray_plane `{cv : CV2} self K dc rv t p1 p2 :
  measurements.camera_matrix self = Some K ->
  measurements.dist_coeffs self = Some dc ->
  measurements.rvec self = Some rv ->
  measurements.tvec self = Some t ->
  measurements.click_points self = [p1; p2] ->
  (pixel_fits p1 = true -> pixel_fits p2 = true ->
   match MetrologyEngine.computeDistance K (Rodrigues rv) t p1 p2 with
   | inr r =>
     measurements.compute_distance self
     = ((true, "Distance computed successfully",
         Some (MetrologyEngine.distance_m r),
         Some (MetrologyEngine.distance_cm r),
         Some (MetrologyEngine.point1 r), Some (MetrologyEngine.point2 r)),
        self)
     /\ (forall tab, Calibration_App.measurement tab = self ->
         Calibration_App.compute_distance tab
         = Calibration_App.log_distance (MetrologyEngine.distance_m r)
             (MetrologyEngine.distance_cm r) (MetrologyEngine.distance_mm r))
   | inl e =>
     e = MetrologyEngine.RayParallelToPlane
     /\ measurements.compute_distance self
        = (measurements.failure
             "Error computing distance: Ray nearly parallel to plane", self)
   end)
  /\ (pixel_fits p1 = false ->
      measurements.compute_distance self
      = (measurements.failure
           "Error computing distance: int too large to convert to float", self))
  /\ (pixel_fits p1 = true -> pixel_fits p2 = false ->
      measurements.compute_distance self
      = (measurements.failure
           (if MetrologyEngine.parallel K (Rodrigues rv) p1
            then "Error computing distance: Ray nearly parallel to plane"
            else "Error computing distance: int too large to convert to float"),
         self)).
Proof.
  intros HK Hd Hr Ht Hp.
  assert (Hc : measurements.compute_distance self
    = match measurements.compute_distance_try self with
      | Ok (distance_m, distance_cm, pt1_3d, pt2_3d) =>
        ((true, "Distance computed successfully", Some distance_m,
          Some distance_cm, Some pt1_3d, Some pt2_3d), self)
      | Raise e =>
        (measurements.failure ("Error computing distance: " ++ str e), self)
      end).
  { unfold measurements.compute_distance. now rewrite Hp, HK, Hd, Hr, Ht. }
  rewrite (compute_distance_try_project self K rv t p1 p2 []) in Hc by assumption.
  split; [|split].
  - intros F1 F2. rewrite F1, F2 in Hc.
    unfold MetrologyEngine.computeDistance.
    assert (He : forall p e,
      MetrologyEngine.project K (Rodrigues rv) t p = inl e ->
      e = MetrologyEngine.RayParallelToPlane).
    { intros p e. unfold MetrologyEngine.project.
      destruct (MetrologyEngine.parallel _ _ _); congruence. }
    destruct (MetrologyEngine.project K (Rodrigues rv) t p1) as [e1|Xb1] eqn:E1.
    { split; [eauto | exact Hc]. }
    destruct (MetrologyEngine.project K (Rodrigues rv) t p2) as [e2|Xb2] eqn:E2.
    { split; [eauto | exact Hc]. }
    cbn [MetrologyEngine.distance_m MetrologyEngine.distance_cm
         MetrologyEngine.distance_mm MetrologyEngine.point1
         MetrologyEngine.point2].
    rewrite (linalg_norm_sub_sym Xb1 Xb2).
    split; [exact Hc|].
    intros tab Htab. unfold Calibration_App.compute_distance.
    now rewrite Htab, Hc.
  - intros F1. rewrite F1 in Hc. exact Hc.
  - intros F1 F2. rewrite F1, F2 in Hc. unfold MetrologyEngine.project in Hc.
    destruct (MetrologyEngine.parallel K (Rodrigues rv) p1); exact Hc.
Qed.

Lemma compute_distance_ray_plane_witness :
  measurements.compute_distance (H := examples.cv2_facing) examples.two_clicks
  = ((true, "Distance computed successfully", Some 0.05%float, Some 5%float,
      Some (Vec3 0 0 0), Some (Vec3 0.05 0 0)), examples.two_clicks).
Proof.
  exact (proj1 (proj1 (compute_distance_ray_plane (cv := examples.cv2_facing)
    examples.two_clicks examples.K800 examples.no_distortion
    (Vec3 0 0 0) (Vec3 0 0 1) (320, 240)%Z (360, 240)%Z
    eq_refl eq_refl eq_refl eq_refl eq_refl) eq_refl eq_refl)).
Defined.

(** C2. When the ray through a pixel has [|normal . r| < 1e-9], and so when
    [normal . r == 0], [image_to_plane] raises [RuntimeError('Ray nearly
    parallel to plane')] instead of dividing; a point is returned only for a
    denominator that passed the test; and [compute_distance] reports failure
    with no number in its result: with the message of the parallel ray when
    the first click is on such a ray, and, when the second is, with that
    message unless a coordinate of the first click was too large for float64,
    which is reported first. *)
Theorem parallel_ray_fails `{cv : CV2} self K dc rv t p1 p2 rest :
  measurements.camera_matrix self = Some K ->
  measurements.dist_coeffs self = Some dc ->
  measurements.rvec self = Some rv ->
  measurements.tvec self = Some t ->
  measurements.click_points self = p1 :: p2 :: rest ->
  (forall pt R n d,
     (PrimFloat.abs (np.dot n (MetrologyEngine.ray K pt)) <? 1e-9)%float = true ->
     measurements.image_to_plane self pt R n d
     = Raise (RuntimeError "Ray nearly parallel to plane"))
  /\ (forall pt R n d,
     (np.dot n (MetrologyEngine.ray K pt) =? 0)%float = true ->
     measurements.image_to_plane self pt R n d
     = Raise (RuntimeError "Ray nearly parallel to plane"))
  /\ (forall pt R n d Xb,
     measurements.image_to_plane self pt R n d = Ok Xb ->
     (PrimFloat.abs (np.dot n (MetrologyEngine.ray K pt)) <? 1e-9)%float = false)
  /\ (MetrologyEngine.parallel K (Rodrigues rv) p1 = true ->
      measurements.compute_distance self
      = ((false, "Error computing distance: Ray nearly parallel to plane",
          None, None, None, None), self))
  /\ (MetrologyEngine.parallel K (Rodrigues rv) p2 = true ->
      measurements.compute_distance self
      = ((false,
          if pixel_fits p1
          then "Error computing distance: Ray nearly parallel to plane"
          else "Error computing distance: int too large to convert to float",
          None, None, None, None), self)).
Proof.
  intros HK Hd Hr Ht Hp.
  assert (Hc : measurements.compute_distance self
    = match measurements.compute_distance_try self with
      | Ok (distance_m, distance_cm, pt1_3d, pt2_3d) =>
        ((true, "Distance computed successfully", Some distance_m,
          Some distance_cm, Some pt1_3d, Some pt2_3d), self)
      | Raise e =>
        (measurements.failure ("Error computing distance: " ++ str e), self)
      end).
  { unfold measurements.compute_distance. now rewrite Hp, HK, Hd, Hr, Ht. }
  rewrite (compute_distance_try_project self K rv t p1 p2 rest) in Hc
    by assumption.
  unfold MetrologyEngine.project in Hc.
  split; [|split; [|split; [|split]]].
  - intros pt R n d Hg. now apply (image_to_plane_guard self K).
  - intros pt R n d Hz. apply (image_to_plane_guard self K); [assumption|].
    now apply abs_zero_small.
  - intros pt R n d Xb. now apply image_to_plane_ok_guard.
  - intros Hpar. rewrite (parallel_fits _ _ _ Hpar), Hpar in Hc. exact Hc.
  - intros Hpar. rewrite (parallel_fits _ _ _ Hpar), Hpar in Hc.
    destruct (pixel_fits p1); [|exact Hc].
    destruct (MetrologyEngine.parallel K (Rodrigues rv) p1); exact Hc.
Qed.

Lemma parallel_ray_fails_witness :
  measurements.compute_distance (H := examples.cv2_edge_on) examples.two_clicks
  = ((false, "Error computing distance: Ray nearly parallel to plane",
      None, None, None, None), examples.two_clicks).
Proof.
  exact (proj1 (proj2 (proj2 (proj2 (parallel_ray_fails
    (cv := examples.cv2_edge_on)
    examples.two_clicks examples.K800 examples.no_distortion
    (Vec3 0 0 0) (Vec3 0 0 1) (320, 240)%Z (360, 240)%Z []
    eq_refl eq_refl eq_refl eq_refl eq_refl)))) eq_refl).
Defined.

(** C9. On a measurement object holding exactly two clicks, a camera model
    and a pose, [compute_distance] leaves the object as it was, and a second
    call returns the same tuple as the first. *)
Theorem compute_distance_idempotent `{cv : CV2} self K dc rv t p1 p2 :
  measurements.camera_matrix self = Some K ->
  measurements.dist_coeffs self = Some dc ->
  measurements.rvec self = Some rv ->
  measurements.tvec self = Some t ->
  measurements.click_points self = [p1; p2] ->
  let first := measurements.compute_distance self in
  let second := measurements.compute_distance (snd first) in
  snd first = self /\ fst second = fst first /\ snd second = self.
Proof.
  intros _ _ _ _ _ first second. subst first second.
  rewrite !compute_distance_reads_only. auto.
Qed.

Lemma compute_distance_idempotent_witness :
  let first :=
    measurements.compute_distance (H := examples.cv2_facing) examples.two_clicks in
  let second := measurements.compute_distance (H := examples.cv2_facing) (snd first) in
  snd first = examples.two_clicks /\ fst second = fst first
  /\ snd second = examples.two_clicks.
Proof.
  exact (compute_distance_idempotent (cv := examples.cv2_facing)
    examples.two_clicks examples.K800 examples.no_distortion
    (Vec3 0 0 0) (Vec3 0 0 1) (320, 240)%Z (360, 240)%Z
    eq_refl eq_refl eq_refl eq_refl eq_refl).
Defined.

(** ** The measurement session of the GUI *)

Section Session.

Context `{cv : CV2}.

Lemma measurement_click_inv s img :
  Calibration_App.session_inv s ->
  Calibration_App.session_inv (fst (Calibration_App.measurement_click s img)).
Proof.
  intros Hs. unfold Calibration_App.measurement_click.
  destruct (Calibration_App.frozen_frame s) eqn:Hf; cbn [negb]; [|exact Hs].
  destruct (Nat.leb 2 (length (Calibration_App.click_points s))) eqn:Hlen;
    [exact Hs|].
  apply Nat.leb_gt in Hlen. destruct Hs as [Hsync Hcap].
  specialize (Hsync Hf).
  unfold measurements.add_click_point.
  destruct (Nat.eqb _ 2); cbn [fst]; (split; cbn;
    [ intros _; now rewrite Hsync
    | rewrite <- Hsync, length_app; simpl; lia ]).
Qed.

Lemma handle_inv s a : Calibration_App.session_inv s -> Calibration_App.session_inv (Calibration_App.handle s a).
Proof.
  intros Hs. destruct a as [loaded| | |img| | |running]; simpl.
  - destruct Hs as [Hsync Hcap]. unfold Calibration_App.start_measurement.
    destruct loaded as [[[[K dc] rv] t]|]; [|now split].
    split; simpl; [discriminate|].
    destruct (Calibration_App.video_running s); simpl; [lia | exact Hcap].
  - destruct Hs as [Hsync Hcap]. now split.
  - unfold Calibration_App.freeze_frame.
    destruct (Calibration_App.video_running s); [|exact Hs].
    destruct (Calibration_App.current_measure_frame s); simpl.
    + destruct (Calibration_App.undistort_frame _); simpl; [|exact Hs].
      split; simpl; [reflexivity | lia].
    + split; simpl; [reflexivity | lia].
  - now apply measurement_click_inv.
  - split; simpl; [reflexivity | lia].
  - split; simpl; [reflexivity | lia].
  - destruct Hs as [Hsync Hcap]. now split.
Qed.

Lemma session_invariant actions : Calibration_App.session_inv (Calibration_App.session actions).
Proof.
  unfold Calibration_App.session.
  induction actions as [|a actions IH] using rev_ind.
  - split; simpl; [reflexivity | lia].
  - rewrite fold_left_app; simpl. now apply handle_inv.
Qed.

End Session.

(** C3, as the code has it.  [compute_distance] succeeds only when at least
    two clicks are held (it uses the first two) and the camera matrix, the
    distortion coefficients, the rotation and the translation are all set.
    Otherwise it fails: with "Need 2 points for distance measurement" when
    fewer than two clicks are held; else with "Camera intrinsics not loaded"
    when the camera matrix or the distortion coefficients are missing; else
    with "Camera extrinsics not loaded" when the rotation or the translation
    is missing.  In a session of the GUI the object never holds more than two
    clicks, so there success means exactly two. *)
Theorem compute_distance_preconditions `{cv : CV2} self :
  let r := fst (measurements.compute_distance self) in
  let n := length (measurements.click_points self) in
  (measurements.success_of r = true ->
   (2 <= n)%nat
   /\ is_Some (measurements.camera_matrix self)
   /\ is_Some (measurements.dist_coeffs self)
   /\ is_Some (measurements.rvec self)
   /\ is_Some (measurements.tvec self))
  /\ ((n < 2)%nat ->
      r = measurements.failure "Need 2 points for distance measurement")
  /\ ((2 <= n)%nat ->
      measurements.camera_matrix self = None
      \/ measurements.dist_coeffs self = None ->
      r = measurements.failure "Camera intrinsics not loaded")
  /\ ((2 <= n)%nat ->
      is_Some (measurements.camera_matrix self) ->
      is_Some (measurements.dist_coeffs self) ->
      measurements.rvec self = None \/ measurements.tvec self = None ->
      r = measurements.failure "Camera extrinsics not loaded")
  /\ (forall actions,
      self = Calibration_App.measurement (Calibration_App.session actions) ->
      measurements.success_of r = true -> n = 2%nat).
Proof.
  intros r n. subst r n. unfold measurements.compute_distance.
  assert (Hsucc :
    measurements.success_of (fst (measurements.compute_distance self)) = true ->
    (2 <= length (measurements.click_points self))%nat
    /\ is_Some (measurements.camera_matrix self)
    /\ is_Some (measurements.dist_coeffs self)
    /\ is_Some (measurements.rvec self)
    /\ is_Some (measurements.tvec self)).
  { unfold measurements.compute_distance.
    destruct (Nat.ltb_spec (length (measurements.click_points self)) 2);
      [discriminate|].
    destruct (measurements.camera_matrix self), (measurements.dist_coeffs self);
      try discriminate.
    destruct (measurements.rvec self), (measurements.tvec self);
      try discriminate.
    intros _. repeat split; eauto. }
  unfold measurements.compute_distance in Hsucc.
  split; [exact Hsucc|].
  split; [|split; [|split]].
  - intros Hn. apply Nat.ltb_lt in Hn. now rewrite Hn.
  - intros Hn Hnone. apply Nat.ltb_ge in Hn. rewrite Hn.
    destruct Hnone as [-> | ->]; [reflexivity|].
    destruct (measurements.camera_matrix self); reflexivity.
  - intros Hn [K ->] [dc ->] Hnone. apply Nat.ltb_ge in Hn. rewrite Hn.
    destruct Hnone as [-> | ->]; [reflexivity|].
    destruct (measurements.rvec self); reflexivity.
  - intros actions -> Hs. apply Hsucc in Hs as [Hn _].
    pose proof (session_invariant actions) as [_ Hcap]. lia.
Qed.

Lemma compute_distance_preconditions_witness :
  ((2 <= 2)%nat
   /\ is_Some (measurements.camera_matrix examples.two_clicks)
   /\ is_Some (measurements.dist_coeffs examples.two_clicks)
   /\ is_Some (measurements.rvec examples.two_clicks)
   /\ is_Some (measurements.tvec examples.two_clicks))
  /\ fst (measurements.compute_distance (H := examples.cv2_facing)
            (examples.calibrated [(320, 240)%Z]))
     = measurements.failure "Need 2 points for distance measurement"
  /\ fst (measurements.compute_distance (H := examples.cv2_facing)
            (snd (measurements.add_click_point
               (snd (measurements.add_click_point
                  (measurements.new None None None None) (1, 1)%Z)) (2, 2)%Z)))
     = measurements.failure "Camera intrinsics not loaded"
  /\ length (measurements.click_points examples.two_clicks) = 2%nat.
Proof.
  split; [|split; [|split]].
  - exact (proj1 (compute_distance_preconditions (cv := examples.cv2_facing)
      examples.two_clicks) eq_refl).
  - apply (proj1 (proj2 (compute_distance_preconditions
      (cv := examples.cv2_facing) (examples.calibrated [(320, 240)%Z])))).
    simpl; lia.
  - apply (proj1 (proj2 (proj2 (compute_distance_preconditions
      (cv := examples.cv2_facing) _)))); [simpl; lia | left; reflexivity].
  - apply (proj2 (proj2 (proj2 (proj2 (compute_distance_preconditions
      (cv := examples.cv2_facing) examples.two_clicks))))
      (examples.clicking [(320, 240); (360, 240)]%Z)); reflexivity.
Defined.

(** The claim of C3 fails on an object holding three clicks: the call
    succeeds although the clicks are not exactly two. *)
Lemma compute_distance_three_clicks :
  ~ (measurements.success_of
       (fst (measurements.compute_distance (H := examples.cv2_facing)
               examples.three_clicks)) = true ->
     length (measurements.click_points examples.three_clicks) = 2%nat).
Proof.
  intros H. specialize (H eq_refl). discriminate H.
Qed.

(** C5, as the code has it.  [add_click_point] always appends the pixel and
    returns the new count; it has no cap of its own.  The cap is in the click
    handler of the GUI: [measurement_click] does nothing once two clicks are
    held, and appends the pixel to the module's list when a frame is frozen and
    fewer than two are held.  Hence in every session of the GUI the
    measurement module holds 0, 1 or 2 clicks. *)
Theorem click_points_capped `{cv : CV2} :
  (forall self p,
     fst (measurements.add_click_point self p)
     = S (length (measurements.click_points self))
     /\ measurements.click_points (snd (measurements.add_click_point self p))
        = (measurements.click_points self ++ [p])%list)
  /\ (forall actions,
      (length (measurements.click_points
         (Calibration_App.measurement (Calibration_App.session actions))) <= 2)%nat)
  /\ (forall actions img,
      let s := Calibration_App.session actions in
      (2 <= length (measurements.click_points (Calibration_App.measurement s)))%nat ->
      Calibration_App.measurement_click s img = (s, None))
  /\ (forall actions img,
      let s := Calibration_App.session actions in
      Calibration_App.frozen_frame s = true ->
      (length (measurements.click_points (Calibration_App.measurement s)) < 2)%nat ->
      measurements.click_points
        (Calibration_App.measurement (fst (Calibration_App.measurement_click s img)))
      = (measurements.click_points (Calibration_App.measurement s) ++ [img])%list).
Proof.
  split; [|split; [|split]].
  - intros self p. unfold measurements.add_click_point; cbn.
    rewrite length_app; simpl. split; [lia | reflexivity].
  - intros actions. apply session_invariant.
  - intros actions img s Hn.
    destruct (session_invariant actions) as [Hsync Hcap]. fold s in Hsync, Hcap.
    unfold Calibration_App.measurement_click.
    destruct (Calibration_App.frozen_frame s); cbn [negb]; [|reflexivity].
    rewrite Hsync by reflexivity.
    apply Nat.leb_le in Hn. now rewrite Hn.
  - intros actions img s Hf Hn.
    destruct (session_invariant actions) as [Hsync Hcap]. fold s in Hsync, Hcap.
    unfold Calibration_App.measurement_click. rewrite Hf; cbn [negb].
    rewrite Hsync by assumption.
    apply Nat.leb_gt in Hn. rewrite Hn.
    unfold measurements.add_click_point.
    destruct (Nat.eqb _ 2); reflexivity.
Qed.

Lemma click_points_capped_witness :
  Calibration_App.measurement_click (H := examples.cv2_facing)
    (Calibration_App.session (H := examples.cv2_facing)
       (examples.clicking [(320, 240); (360, 240)]%Z)) (100, 100)%Z
  = (Calibration_App.session (H := examples.cv2_facing)
       (examples.clicking [(320, 240); (360, 240)]%Z), None)
  /\ measurements.click_points
       (Calibration_App.measurement
          (fst (Calibration_App.measurement_click (H := examples.cv2_facing)
             (Calibration_App.session (H := examples.cv2_facing)
                (examples.clicking [(320, 240)%Z])) (360, 240)%Z)))
     = [(320, 240); (360, 240)]%Z.
Proof.
  split.
  - apply (proj1 (proj2 (proj2 (click_points_capped (cv := examples.cv2_facing))))
      (examples.clicking [(320, 240); (360, 240)]%Z) (100, 100)%Z).
    simpl; lia.
  - apply (proj2 (proj2 (proj2 (click_points_capped (cv := examples.cv2_facing))))
      (examples.clicking [(320, 240)%Z]) (360, 240)%Z); [reflexivity | simpl; lia].
Defined.

(** The claim of C5 fails on [add_click_point] itself: called on an object
    that already holds two clicks it appends a third and returns 3. *)
Lemma add_click_point_third :
  length (measurements.click_points examples.two_clicks) = 2%nat
  /\ fst (measurements.add_click_point examples.two_clicks (100, 100)%Z) = 3%nat
  /\ snd (measurements.add_click_point examples.two_clicks (100, 100)%Z)
     = examples.three_clicks
  /\ snd (measurements.add_click_point examples.two_clicks (100, 100)%Z)
     <> examples.two_clicks
  /\ ~ (length (measurements.click_points
          (snd (measurements.add_click_point examples.two_clicks (100, 100)%Z)))
        <= 2)%nat.
Proof.
  repeat split; try reflexivity.
  - intros H. apply (f_equal measurements.click_points) in H.
    apply (f_equal length) in H. discriminate H.
  - simpl. lia.
Qed.

(** ** The correspondence store and the calibration tab *)

(** [add_frame] itself checks nothing: it appends, returns the new count
    and keeps the first image size it was given. *)
Lemma add_frame_appends self corners ids size :
  fst (intrinsic_calibration.add_frame self corners ids size)
  = S (intrinsic_calibration.get_frame_count self)
  /\ intrinsic_calibration.get_frame_count
       (snd (intrinsic_calibration.add_frame self corners ids size))
     = S (intrinsic_calibration.get_frame_count self)
  /\ intrinsic_calibration.image_size
       (snd (intrinsic_calibration.add_frame self corners ids size))
     = match intrinsic_calibration.image_size self with
       | None => size
       | Some s => Some s
       end.
Proof.
  unfold intrinsic_calibration.add_frame, intrinsic_calibration.get_frame_count.
  cbn. rewrite length_app; simpl. repeat split; lia.
Qed.

(** C4, as the code has it.  [capture_calibration_frame] shows the
    "Insufficient Corners" warning and leaves the store as it is when the
    detection holds fewer than [MIN_CHARUCO_CORNERS] = 4 corners.  Otherwise
    the frame is added: the frame count grows by exactly 1, and the store
    keeps the first image size it was given.  [add_frame] itself never fails,
    whatever the corners and the size: the resolution of a frame is not
    compared with the stored one, and no size mismatch is ever reported. *)
Theorem capture_calibration_frame_outcome self :
  let out := fst (Calibration_App.capture_calibration_frame self) in
  let self' := snd (Calibration_App.capture_calibration_frame self) in
  let count := intrinsic_calibration.get_frame_count (Calibration_App.intrinsic self) in
  ((Calibration_App.get_corners_detected self < config.MIN_CHARUCO_CORNERS)%Z ->
   (exists text,
      out = Calibration_App.Box (Calibration_App.warning "Insufficient Corners" text))
   /\ self' = self)
  /\ ((config.MIN_CHARUCO_CORNERS <= Calibration_App.get_corners_detected self)%Z ->
      out = Calibration_App.FramesCaptured (S count)
      /\ intrinsic_calibration.get_frame_count (Calibration_App.intrinsic self')
         = S count
      /\ intrinsic_calibration.image_size (Calibration_App.intrinsic self')
         = match intrinsic_calibration.image_size (Calibration_App.intrinsic self) with
           | None => Calibration_App.image_size self
           | Some s => Some s
           end)
  /\ (forall store corners ids size,
      fst (intrinsic_calibration.add_frame store corners ids size)
      = S (intrinsic_calibration.get_frame_count store)
      /\ intrinsic_calibration.image_size
           (snd (intrinsic_calibration.add_frame store corners ids size))
         = match intrinsic_calibration.image_size store with
           | None => size
           | Some s => Some s
           end).
Proof.
  intros out self' count. subst out self' count.
  unfold Calibration_App.capture_calibration_frame. split; [|split].
  3: { intros store corners ids size.
       pose proof (add_frame_appends store corners ids size) as (Hn & _ & Hs).
       now split. }
  - intros Hlt. apply Z.ltb_lt in Hlt. rewrite Hlt. split; [eauto | reflexivity].
  - intros Hge. pose proof Hge as Hge'. apply Z.ltb_ge in Hge'. rewrite Hge'.
    unfold Calibration_App.get_corners_detected in Hge.
    destruct (Calibration_App.current_detection self) as [d|];
      [|unfold config.MIN_CHARUCO_CORNERS in Hge; lia].
    pose proof (add_frame_appends (Calibration_App.intrinsic self)
      (video_thread.charuco_corners d) (video_thread.charuco_ids d)
      (Calibration_App.image_size self)) as (Hn & Hc & Hs).
    destruct (intrinsic_calibration.add_frame _ _ _ _) as [n store'].
    simpl in *. subst n. auto.
Qed.

Lemma capture_calibration_frame_outcome_witness :
  fst (Calibration_App.capture_calibration_frame examples.one_frame_640x480)
  = Calibration_App.FramesCaptured 2
  /\ snd (Calibration_App.capture_calibration_frame
            (Calibration_App.update_calib_detection examples.one_frame_640x480
               (video_thread.info examples.three_corners examples.three_ids
                  (480, 640)%Z)))
     = Calibration_App.update_calib_detection examples.one_frame_640x480
         (video_thread.info examples.three_corners examples.three_ids (480, 640)%Z).
Proof.
  split.
  - apply (proj1 (proj2
      (capture_calibration_frame_outcome examples.one_frame_640x480))).
    vm_compute; discriminate.
  - apply (proj1 (capture_calibration_frame_outcome _)). reflexivity.
Defined.

(** The claim of C4 fails on a frame of another resolution: after a first
    640x480 frame, a 1280x960 frame with four corners is captured like any
    other, and the stored size stays 640x480. *)
Lemma capture_ignores_resolution :
  let later :=
    Calibration_App.update_calib_detection examples.one_frame_640x480
      (video_thread.info examples.four_corners examples.four_ids (960, 1280)%Z) in
  intrinsic_calibration.image_size (Calibration_App.intrinsic examples.one_frame_640x480)
  = Some (640, 480)%Z
  /\ video_thread.frame_shape
       (default (video_thread.info None None (0, 0)%Z)
          (Calibration_App.current_detection later)) = (960, 1280)%Z
  /\ fst (Calibration_App.capture_calibration_frame later)
     = Calibration_App.FramesCaptured 2
  /\ intrinsic_calibration.image_size
       (Calibration_App.intrinsic (snd (Calibration_App.capture_calibration_frame later)))
     = Some (640, 480)%Z
  /\ fst (intrinsic_calibration.add_frame
            (Calibration_App.intrinsic examples.one_frame_640x480)
            examples.four_corners examples.four_ids (Some (1280, 960)%Z)) = 2%nat
  /\ intrinsic_calibration.image_size
       (snd (intrinsic_calibration.add_frame
               (Calibration_App.intrinsic examples.one_frame_640x480)
               examples.four_corners examples.four_ids (Some (1280, 960)%Z)))
     = Some (640, 480)%Z.
Proof.
  repeat split.
Qed.

(** ** The calibration worker and the calibration file *)

(** C6, as the code has it.  For a completed fit with RMS [ret], the worker
    reports failure ("Calibration RMS error too high. Collect better frames.")
    with no calibration record, and nothing is written to the calibration
    file, exactly when [ret] is zero or greater than 2.0.  For every other
    [ret] it reports success with a record holding [camera_matrix],
    [dist_coeffs], [rms] and [image_size], which the GUI writes to the
    calibration file. *)
Theorem run_quality_gate `{ar : Aruco} self ret camera_matrix dist_coeffs fs :
  calibrateCameraCharuco (intrinsic_calibration.corners self)
    (intrinsic_calibration.ids self) (intrinsic_calibration.board self)
    (intrinsic_calibration.w_image_size self)
  = Ok (ret, camera_matrix, dist_coeffs) ->
  let rejected := ((ret =? 0)%float || (2 <? ret)%float)%bool in
  let record :=
    {| intrinsic_calibration.cd_camera_matrix := json_np.tolist camera_matrix;
       intrinsic_calibration.cd_dist_coeffs := json_np.tolist dist_coeffs;
       intrinsic_calibration.cd_rms := ret;
       intrinsic_calibration.cd_image_size :=
         intrinsic_calibration.w_image_size self |} in
  (rejected = true ->
   intrinsic_calibration.run self
   = [intrinsic_calibration.progress "Running calibration algorithm...";
      intrinsic_calibration.finished false
        "Calibration RMS error too high. Collect better frames." None]
   /\ Calibration_App.deliver (intrinsic_calibration.run self) fs = fs)
  /\ (rejected = false ->
      intrinsic_calibration.run self
      = [intrinsic_calibration.progress "Running calibration algorithm...";
         intrinsic_calibration.progress
           ("Calibration successful! RMS = " ++ format_4f ret);
         intrinsic_calibration.finished true
           ("Calibration completed with RMS error: " ++ format_4f ret)
           (Some record)]
      /\ Calibration_App.deliver (intrinsic_calibration.run self) fs
         = <[config.CALIB_FILE := intrinsic_calibration.calib_json record]> fs).
Proof.
  intros Hfit rejected record. subst rejected record.
  unfold intrinsic_calibration.run. rewrite Hfit.
  split; intros ->; split; reflexivity.
Qed.

Lemma run_quality_gate_witness :
  intrinsic_calibration.run
    (H := examples.aruco_answering
            (Ok (0.5%float, examples.K800_array, examples.no_distortion)) "0.5000")
    examples.worker
  = [intrinsic_calibration.progress "Running calibration algorithm...";
     intrinsic_calibration.progress "Calibration successful! RMS = 0.5000";
     intrinsic_calibration.finished true
       "Calibration completed with RMS error: 0.5000" (Some examples.model_a)]
  /\ Calibration_App.deliver
       (intrinsic_calibration.run
          (H := examples.aruco_answering
                  (Ok (2.5%float, examples.K800_array, examples.no_distortion))
                  "2.5000")
          examples.worker) ∅ = ∅.
Proof.
  split.
  - exact (proj1 (proj2 (run_quality_gate
      (ar := examples.aruco_answering
               (Ok (0.5%float, examples.K800_array, examples.no_distortion)) "0.5000")
      examples.worker 0.5%float examples.K800_array examples.no_distortion ∅
      eq_refl) eq_refl)).
  - exact (proj2 (proj1 (run_quality_gate
      (ar := examples.aruco_answering
               (Ok (2.5%float, examples.K800_array, examples.no_distortion)) "2.5000")
      examples.worker 2.5%float examples.K800_array examples.no_distortion ∅
      eq_refl) eq_refl)).
Defined.

(** The claim of C6 fails on a fit whose RMS is exactly zero: zero does not
    exceed 2.0, yet the worker reports failure and no record. *)
Lemma run_rejects_zero_rms :
  (2 <? 0)%float = false
  /\ (0 <=? 2)%float = true
  /\ intrinsic_calibration.run
       (H := examples.aruco_answering
               (Ok (0%float, examples.K800_array, examples.no_distortion)) "0.0000")
       examples.worker
     = [intrinsic_calibration.progress "Running calibration algorithm...";
        intrinsic_calibration.finished false
          "Calibration RMS error too high. Collect better frames." None].
Proof.
  repeat split.
Qed.

(** ** Saving and loading the two files *)

Lemma elements_tolist : forall a, json_np.elements (json_np.tolist a) = Ok a.
Proof.
  fix IH 1. intros [f|l]; [reflexivity|].
  change (json_np.elements (json_np.tolist (Arr l)))
    with (l' ← (fix go (l : list json) : res (list ndarray) :=
                  match l with
                  | [] => Ok []
                  | x :: r => a ← json_np.elements x; r' ← go r; Ok (a :: r')
                  end) (map json_np.tolist l);
          Ok (Arr l')).
  assert (E : (fix go (l : list json) : res (list ndarray) :=
                 match l with
                 | [] => Ok []
                 | x :: r => a ← json_np.elements x; r' ← go r; Ok (a :: r')
                 end) (map json_np.tolist l) = Ok l).
  { induction l as [|x l IHl]; [reflexivity|].
    cbn [map]. rewrite IH. cbn. rewrite IHl. reflexivity. }
  rewrite E. reflexivity.
Qed.

(** [np.array(a.tolist())] is [a] again for every array. *)
Lemma array_tolist a :
  is_Some (json_np.shape a) -> json_np.array (json_np.tolist a) = Ok a.
Proof.
  intros [s Hs]. unfold json_np.array. rewrite elements_tolist; cbn.
  now rewrite Hs.
Qed.

Lemma load_after_save_calibration fs path cm dc rms size :
  is_Some (json_np.shape cm) -> is_Some (json_np.shape dc) ->
  intrinsic_calibration.load_calibration path
    (snd (intrinsic_calibration.save_calibration
            {| intrinsic_calibration.cd_camera_matrix := json_np.tolist cm;
               intrinsic_calibration.cd_dist_coeffs := json_np.tolist dc;
               intrinsic_calibration.cd_rms := rms;
               intrinsic_calibration.cd_image_size := size |} path fs))
  = Ok (cm, dc).
Proof.
  intros Hcm Hdc.
  unfold intrinsic_calibration.load_calibration,
    intrinsic_calibration.save_calibration, json_np.load, json_np.dump.
  cbn [snd]. rewrite lookup_insert_eq. cbn -[json_np.array].
  rewrite (array_tolist cm Hcm). cbn -[json_np.array].
  now rewrite (array_tolist dc Hdc).
Qed.

Lemma load_after_save_extrinsics self fs path rv tv :
  let p := default config.EXTRINSICS_FILE path in
  let fs' :=
    <[p := JObject [("rvec", json_np.vec_tolist rv);
                    ("tvec", json_np.vec_tolist tv)]]> fs in
  extrinsic_calibration.save_extrinsics self (Some rv) (Some tv) path fs
  = Ok (p, fs')
  /\ extrinsic_calibration.load_extrinsics path fs' = Ok (rv, tv).
Proof.
  intros p fs'. split; [reflexivity|].
  unfold extrinsic_calibration.load_extrinsics, json_np.load. fold p.
  unfold fs'. rewrite lookup_insert_eq; cbn.
  destruct rv, tv; reflexivity.
Qed.

(** C7, as the code has it.  Saving a camera-model record and loading it back
    with [load_calibration] reproduces [camera_matrix] and [dist_coeffs]
    exactly; [rms] and [image_size] are in the file, but [load_calibration]
    does not return them.  Saving a pose with [save_extrinsics] and loading it
    back with [load_extrinsics] reproduces [rvec] and [tvec] exactly, and
    saving the loaded pose again writes the same file. *)
Theorem save_load_roundtrip :
  (forall fs path cm dc rms size,
     is_Some (json_np.shape cm) -> is_Some (json_np.shape dc) ->
     let record :=
       {| intrinsic_calibration.cd_camera_matrix := json_np.tolist cm;
          intrinsic_calibration.cd_dist_coeffs := json_np.tolist dc;
          intrinsic_calibration.cd_rms := rms;
          intrinsic_calibration.cd_image_size := size |} in
     let saved := intrinsic_calibration.save_calibration record path fs in
     intrinsic_calibration.load_calibration path (snd saved) = Ok (cm, dc)
     /\ snd saved !! fst saved = Some (intrinsic_calibration.calib_json record)
     /\ json_np.getitem (intrinsic_calibration.calib_json record) "rms"
        = Ok (JFloat rms))
  /\ (forall self fs path rv tv,
      exists p fs',
        extrinsic_calibration.save_extrinsics self (Some rv) (Some tv) path fs
        = Ok (p, fs')
        /\ extrinsic_calibration.load_extrinsics path fs' = Ok (rv, tv)
        /\ extrinsic_calibration.save_extrinsics self (Some rv) (Some tv) path fs'
           = Ok (p, fs')).
Proof.
  split.
  - intros fs path cm dc rms size Hcm Hdc record saved. subst record saved.
    split; [now apply load_after_save_calibration|].
    split; [apply lookup_insert_eq | reflexivity].
  - intros self fs path rv tv.
    destruct (load_after_save_extrinsics self fs path rv tv) as [Hs Hl].
    eexists _, _. split; [exact Hs|]. split; [exact Hl|].
    unfold extrinsic_calibration.save_extrinsics, json_np.dump.
    now rewrite insert_insert_eq.
Qed.

Lemma save_load_roundtrip_witness :
  intrinsic_calibration.load_calibration None
    (snd (intrinsic_calibration.save_calibration examples.model_a None ∅))
  = Ok (examples.K800_array, examples.no_distortion).
Proof.
  refine (proj1 (proj1 save_load_roundtrip ∅ None examples.K800_array
    examples.no_distortion 0.5%float (Some (640, 480)%Z) _ _)).
  - exists [3; 3]%nat. reflexivity.
  - exists [1; 5]%nat. reflexivity.
Defined.

(** The claim of C7 fails for the RMS and the image size: two records that
    differ in both load back as the same pair of arrays. *)
Lemma load_calibration_drops_rms :
  intrinsic_calibration.cd_rms examples.model_a
  <> intrinsic_calibration.cd_rms examples.model_b
  /\ intrinsic_calibration.cd_image_size examples.model_a
     <> intrinsic_calibration.cd_image_size examples.model_b
  /\ intrinsic_calibration.load_calibration None
       (snd (intrinsic_calibration.save_calibration examples.model_a None ∅))
     = intrinsic_calibration.load_calibration None
         (snd (intrinsic_calibration.save_calibration examples.model_b None ∅)).
Proof.
  split; [|split].
  - intros H. apply (f_equal (fun x => (x <? 1)%float)) in H. discriminate H.
  - discriminate.
  - rewrite (load_after_save_calibration ∅ None examples.K800_array
      examples.no_distortion 0.5%float (Some (640, 480)%Z))
      by (eexists; reflexivity).
    rewrite (load_after_save_calibration ∅ None examples.K800_array
      examples.no_distortion 1.5%float (Some (1280, 960)%Z))
      by (eexists; reflexivity).
    reflexivity.
Qed.

(** ** The pose solver *)

Section PoseSolver.

Context `{cv : CV2}.

(** The three ways [capture_pose] ends, read off its definition. *)
Lemma capture_pose_cases self corners ids board :
  let call := extrinsic_calibration.capture_pose self corners ids board in
  (exists e, call = (Raise e, self))
  \/ (exists msg, call = (Ok (false, msg, None, None), self))
  \/ (exists rv tv,
        call = (Ok (true, "Extrinsics captured successfully", Some rv, Some tv),
                {| extrinsic_calibration.camera_matrix :=
                     extrinsic_calibration.camera_matrix self;
                   extrinsic_calibration.dist_coeffs :=
                     extrinsic_calibration.dist_coeffs self;
                   extrinsic_calibration.rvec := Some rv;
                   extrinsic_calibration.tvec := Some tv |})).
Proof.
  unfold extrinsic_calibration.capture_pose.
  destruct (extrinsic_calibration.camera_matrix self) as [K|]; [|left; eauto].
  destruct (extrinsic_calibration.dist_coeffs self) as [dc|]; [|left; eauto].
  destruct corners as [cs|]; [|right; left; eauto].
  destruct (Nat.ltb (length cs) 4); [right; left; eauto|].
  destruct (extrinsic_calibration.capture_pose_try K dc cs ids board)
    as [[[[] rv] tv]|e]; [right; right; eauto | right; left; eauto ..].
Qed.

End PoseSolver.

(** C8.  [capture_pose] raises the [ValueError] "Camera intrinsics not set.
    Load calibration first." whenever the camera matrix or the distortion
    coefficients are not set; with intrinsics set it returns the failure "Need
    at least 4 ChArUco corners for pose estimation" whenever the corners are
    missing or fewer than 4.  In both cases the outcome does not depend on the
    pose solver: the solver is consulted only when both preconditions hold,
    and then a solve that reports no success returns the failure "solvePnP
    failed". *)
Theorem capture_pose_preconditions `{cv : CV2} self corners ids board :
  let out := fst (extrinsic_calibration.capture_pose self corners ids board) in
  let few :=
    corners = None \/ exists cs, corners = Some cs /\ (length cs < 4)%nat in
  (extrinsic_calibration.camera_matrix self = None
   \/ extrinsic_calibration.dist_coeffs self = None ->
   out = Raise (ValueError "Camera intrinsics not set. Load calibration first."))
  /\ (is_Some (extrinsic_calibration.camera_matrix self) ->
      is_Some (extrinsic_calibration.dist_coeffs self) -> few ->
      out = Ok (false, "Need at least 4 ChArUco corners for pose estimation",
                None, None))
  /\ (forall cv' : CV2,
      extrinsic_calibration.camera_matrix self = None
      \/ extrinsic_calibration.dist_coeffs self = None \/ few ->
      extrinsic_calibration.capture_pose (H := cv') self corners ids board
      = extrinsic_calibration.capture_pose (H := cv) self corners ids board)
  /\ (forall K dc cs ids' obj_pts,
      extrinsic_calibration.camera_matrix self = Some K ->
      extrinsic_calibration.dist_coeffs self = Some dc ->
      corners = Some cs -> (4 <= length cs)%nat ->
      ids = Some ids' ->
      extrinsic_calibration.gather (getChessboardCorners board) ids' = Ok obj_pts ->
      (forall rv tv, solvePnP obj_pts cs K dc = Ok (false, rv, tv) ->
         out = Ok (false, "solvePnP failed", None, None))
      /\ (forall rv tv, solvePnP obj_pts cs K dc = Ok (true, rv, tv) ->
         out = Ok (true, "Extrinsics captured successfully", Some rv, Some tv))
      /\ (forall e, solvePnP obj_pts cs K dc = Raise e ->
         out = Ok (false, "Pose estimation error: " ++ str e, None, None))).
Proof.
  intros out few. subst out few.
  split; [|split; [|split]].
  - unfold extrinsic_calibration.capture_pose.
    intros [-> | ->]; [reflexivity|].
    destruct (extrinsic_calibration.camera_matrix self); reflexivity.
  - unfold extrinsic_calibration.capture_pose.
    intros [K ->] [dc ->] [-> | (cs & -> & Hlen)]; [reflexivity|].
    apply Nat.ltb_lt in Hlen. now rewrite Hlen.
  - intros cv' H. unfold extrinsic_calibration.capture_pose.
    destruct (extrinsic_calibration.camera_matrix self) as [K|]; [|reflexivity].
    destruct (extrinsic_calibration.dist_coeffs self) as [dc|]; [|reflexivity].
    destruct H as [H | [H | [-> | (cs & -> & Hlen)]]];
      [discriminate | discriminate | reflexivity |].
    apply Nat.ltb_lt in Hlen. now rewrite Hlen.
  - intros K dc cs ids' obj_pts HK Hdc -> Hlen -> Hg.
    unfold extrinsic_calibration.capture_pose,
      extrinsic_calibration.capture_pose_try.
    rewrite HK, Hdc. apply Nat.ltb_ge in Hlen. rewrite Hlen.
    cbv zeta. cbn [mbind res_bind]. rewrite Hg. cbn [mbind res_bind].
    repeat split; intros; match goal with H : solvePnP _ _ _ _ = _ |- _ =>
      rewrite H end; reflexivity.
Qed.

Lemma capture_pose_preconditions_witness :
  fst (extrinsic_calibration.capture_pose (H := examples.cv2_facing)
         examples.without_intrinsics examples.four_corners examples.four_ids
         examples.board_2x2)
  = Raise (ValueError "Camera intrinsics not set. Load calibration first.")
  /\ fst (extrinsic_calibration.capture_pose (H := examples.cv2_facing)
            examples.with_intrinsics examples.three_corners examples.three_ids
            examples.board_2x2)
     = Ok (false, "Need at least 4 ChArUco corners for pose estimation", None, None)
  /\ fst (extrinsic_calibration.capture_pose (H := examples.cv2_edge_on)
            examples.with_intrinsics examples.four_corners examples.four_ids
            examples.board_2x2)
     = Ok (false, "solvePnP failed", None, None).
Proof.
  split; [|split].
  - apply (proj1 (capture_pose_preconditions (cv := examples.cv2_facing)
      examples.without_intrinsics examples.four_corners examples.four_ids
      examples.board_2x2)).
    left; reflexivity.
  - apply (proj1 (proj2 (capture_pose_preconditions (cv := examples.cv2_facing)
      examples.with_intrinsics examples.three_corners examples.three_ids
      examples.board_2x2))).
    + eexists; reflexivity.
    + eexists; reflexivity.
    + right. eexists. split; [reflexivity | simpl; lia].
  - refine (proj1 (proj2 (proj2 (proj2 (capture_pose_preconditions
      (cv := examples.cv2_edge_on)
      examples.with_intrinsics examples.four_corners examples.four_ids
      examples.board_2x2))) examples.K800 examples.no_distortion _ _ _
      eq_refl eq_refl eq_refl _ eq_refl eq_refl) (Vec3 0 0 0) (Vec3 0 0 0) eq_refl).
    simpl; lia.
Defined.

(** C10.  Whenever [capture_pose] fails (it raises because the intrinsics are
    missing, or returns [False] for too few corners, a failed solve or an
    exception during estimation), the object, and so its [rvec] and [tvec], is
    as before the call; the two attributes are assigned only when the call
    returns success, and then to the solver's result.  Every call ends in one
    of these ways. *)
Theorem capture_pose_failure_keeps_pose `{cv : CV2} self corners ids board :
  let out := fst (extrinsic_calibration.capture_pose self corners ids board) in
  let self' := snd (extrinsic_calibration.capture_pose self corners ids board) in
  let failed :=
    (exists e, out = Raise e) \/ (exists msg r t, out = Ok (false, msg, r, t)) in
  let succeeded :=
    exists msg rv tv, out = Ok (true, msg, Some rv, Some tv)
      /\ extrinsic_calibration.rvec self' = Some rv
      /\ extrinsic_calibration.tvec self' = Some tv in
  (failed ->
   self' = self
   /\ extrinsic_calibration.rvec self' = extrinsic_calibration.rvec self
   /\ extrinsic_calibration.tvec self' = extrinsic_calibration.tvec self)
  /\ (extrinsic_calibration.rvec self' <> extrinsic_calibration.rvec self
      \/ extrinsic_calibration.tvec self' <> extrinsic_calibration.tvec self ->
      succeeded)
  /\ (failed \/ succeeded).
Proof.
  intros out self' failed succeeded. subst out self' failed succeeded.
  destruct (capture_pose_cases self corners ids board)
    as [(e & ->) | [(msg & ->) | (rv & tv & ->)]]; cbn [fst snd].
  - split; [auto|]. split; [|left; left; eauto].
    intros [H | H]; now elim H.
  - split; [auto|]. split; [|left; right; eauto].
    intros [H | H]; now elim H.
  - split; [|split].
    + intros [(e & He) | (msg & r & t & He)]; discriminate He.
    + intros _. eauto 6.
    + right. eauto 6.
Qed.

Lemma capture_pose_failure_keeps_pose_witness :
  snd (extrinsic_calibration.capture_pose (H := examples.cv2_edge_on)
         examples.posed examples.four_corners examples.four_ids examples.board_2x2)
  = examples.posed
  /\ extrinsic_calibration.rvec
       (snd (extrinsic_calibration.capture_pose (H := examples.cv2_edge_on)
          examples.posed examples.four_corners examples.four_ids
          examples.board_2x2))
     = Some (Vec3 0.1 0.2 0.3)
  /\ extrinsic_calibration.tvec
       (snd (extrinsic_calibration.capture_pose (H := examples.cv2_edge_on)
          examples.posed examples.four_corners examples.four_ids
          examples.board_2x2))
     = Some (Vec3 0 0 0.5).
Proof.
  apply (proj1 (capture_pose_failure_keeps_pose (cv := examples.cv2_edge_on)
    examples.posed examples.four_corners examples.four_ids examples.board_2x2)).
  right. do 3 eexists. reflexivity.
Defined.

(** * Further properties of the sources *)

(** ** The correspondence store over several calls *)

Lemma fold_add_frames (frames : list runs.frame) self :
  fold_left runs.call (map runs.AddFrame frames) self
  = {| intrinsic_calibration.all_charuco_corners :=
         intrinsic_calibration.all_charuco_corners self
         ++ map (fun f : runs.frame => fst (fst f)) frames;
       intrinsic_calibration.all_charuco_ids :=
         intrinsic_calibration.all_charuco_ids self
         ++ map (fun f : runs.frame => snd (fst f)) frames;
       intrinsic_calibration.image_size :=
         match intrinsic_calibration.image_size self with
         | Some s => Some s
         | None => runs.first_size frames
         end |}%list.
Proof.
  revert self. induction frames as [|[[c i] sz] frames IH]; intros self.
  - destruct self as [cs0 ids0 [s|]]; cbn; now rewrite !app_nil_r.
  - cbn [map fold_left]. rewrite IH. cbn.
    rewrite <- !app_assoc. cbn.
    destruct (intrinsic_calibration.image_size self), sz; reflexivity.
Qed.

Lemma store_after_app calls calls' :
  runs.store_after (calls ++ calls')
  = fold_left runs.call calls' (runs.store_after calls).
Proof. unfold runs.store_after. apply fold_left_app. Qed.

(** X1.  Whatever calls of [add_frame] and [clear_frames] are made on a new
    store, its list of corners and its list of ids have the same length. *)
Theorem store_lists_aligned calls :
  length (intrinsic_calibration.all_charuco_corners (runs.store_after calls))
  = length (intrinsic_calibration.all_charuco_ids (runs.store_after calls)).
Proof.
  induction calls as [|c calls IH] using rev_ind; [reflexivity|].
  rewrite store_after_app. cbn [fold_left].
  destruct c as [[[cs0 ids0] sz]|]; cbn; [|reflexivity].
  rewrite !length_app, IH. reflexivity.
Qed.

(** X2.  After [clear_frames] the store forgets everything: the frames added
    afterwards are held in the order they were added, and the image size is
    the first size given after the clear that is not [None], whatever the
    store held before. *)
Theorem store_after_clear_then_frames calls (frames : list runs.frame) :
  let store :=
    runs.store_after (calls ++ runs.ClearFrames :: map runs.AddFrame frames) in
  intrinsic_calibration.all_charuco_corners store
  = map (fun f : runs.frame => fst (fst f)) frames
  /\ intrinsic_calibration.all_charuco_ids store
     = map (fun f : runs.frame => snd (fst f)) frames
  /\ intrinsic_calibration.image_size store = runs.first_size frames
  /\ intrinsic_calibration.get_frame_count store = length frames.
Proof.
  intros store. subst store. rewrite store_after_app. cbn [fold_left runs.call].
  rewrite fold_add_frames. unfold intrinsic_calibration.get_frame_count. cbn.
  rewrite length_map. auto.
Qed.

(** X3.  On a store filled by [add_frame] alone, [run_calibration] raises
    [ValueError] when fewer than 8 frames were added, and otherwise returns a
    worker holding all the frames in order, the board, and the first image
    size that was given. *)
Theorem run_calibration_threshold (frames : list runs.frame) board :
  let store := runs.store_after (map runs.AddFrame frames) in
  ((length frames < 8)%nat ->
   intrinsic_calibration.run_calibration store board
   = Raise (ValueError "Need at least 8 frames for calibration"))
  /\ ((8 <= length frames)%nat ->
      intrinsic_calibration.run_calibration store board
      = Ok {| intrinsic_calibration.corners :=
                map (fun f : runs.frame => fst (fst f)) frames;
              intrinsic_calibration.ids :=
                map (fun f : runs.frame => snd (fst f)) frames;
              intrinsic_calibration.board := board;
              intrinsic_calibration.w_image_size := runs.first_size frames |}).
Proof.
  intros store. subst store. unfold runs.store_after. rewrite fold_add_frames.
  unfold intrinsic_calibration.run_calibration,
    intrinsic_calibration.get_frame_count. cbn -[Nat.ltb]. rewrite length_map.
  split; intros Hn.
  - apply Nat.ltb_lt in Hn. now rewrite Hn.
  - apply Nat.ltb_ge in Hn. now rewrite Hn.
Qed.

Lemma run_calibration_threshold_witness :
  intrinsic_calibration.run_calibration
    (runs.store_after
       (map runs.AddFrame
          (repeat (examples.four_corners, examples.four_ids, Some (640, 480)%Z) 7)))
    examples.board_2x2
  = Raise (ValueError "Need at least 8 frames for calibration")
  /\ intrinsic_calibration.run_calibration
       (runs.store_after
          (map runs.AddFrame
             (repeat (examples.four_corners, examples.four_ids, Some (640, 480)%Z) 8)))
       examples.board_2x2
     = Ok examples.worker.
Proof.
  split.
  - apply (proj1 (run_calibration_threshold
      (repeat (examples.four_corners, examples.four_ids, Some (640, 480)%Z) 7)
      examples.board_2x2)).
    simpl; lia.
  - apply (proj2 (run_calibration_threshold
      (repeat (examples.four_corners, examples.four_ids, Some (640, 480)%Z) 8)
      examples.board_2x2)).
    simpl; lia.
Defined.

(** ** The calibration tab over a whole session *)

Lemma first_detection_size_app actions a :
  runs.first_detection_size (actions ++ [a])
  = match runs.first_detection_size actions with
    | Some s => Some s
    | None => runs.first_detection_size [a]
    end.
Proof.
  induction actions as [|[c i s|c i s|] actions IH]; cbn;
    [now destruct a | reflexivity | exact IH | exact IH].
Qed.

Lemma calibration_session_app actions a :
  runs.calibration_session (actions ++ [a])
  = runs.calibration_handle (runs.calibration_session actions) a.
Proof. unfold runs.calibration_session. now rewrite fold_left_app. Qed.

(** What every state of a calibration session satisfies. *)
Lemma calibration_session_facts actions :
  let tab := runs.calibration_session actions in
  let store := Calibration_App.intrinsic tab in
  (forall d, Calibration_App.current_detection tab = Some d ->
     video_thread.corners_detected d
     = match video_thread.charuco_ids d with
       | Some l => Z.of_nat (length l)
       | None => 0%Z
       end)
  /\ Calibration_App.image_size tab = runs.first_detection_size actions
  /\ Forall (fun ids : charuco_ids_t => exists l, ids = Some l /\ (4 <= length l)%nat)
       (intrinsic_calibration.all_charuco_ids store)
  /\ (intrinsic_calibration.image_size store = None
      \/ intrinsic_calibration.image_size store
         = runs.first_detection_size actions)
  /\ (forallb runs.own_action actions = true ->
      (is_Some (Calibration_App.current_detection tab) ->
       is_Some (Calibration_App.image_size tab))
      /\ (intrinsic_calibration.all_charuco_corners store <> [] ->
          is_Some (intrinsic_calibration.image_size store))).
Proof.
  induction actions as [|a actions IH] using rev_ind.
  - cbn. repeat split; try discriminate; try constructor; try congruence.
    intros [? ?]; discriminate.
  - cbv zeta in IH |- *. rewrite calibration_session_app.
    set (tab := runs.calibration_session actions) in *.
    destruct IH as (Hcd & Hgui & Hids & Hst & Hown).
    rewrite first_detection_size_app, forallb_app. cbn [forallb].
    rewrite andb_true_r.
    destruct a as [c i shape|c i shape|]; cbn [runs.calibration_handle].
    + unfold Calibration_App.update_calib_detection; cbn.
      split; [intros d [= <-]; reflexivity|].
      split; [rewrite <- Hgui; now destruct (Calibration_App.image_size tab)|].
      split; [exact Hids|].
      split.
      { destruct Hst as [Hst|Hst]; [now left|].
        destruct (runs.first_detection_size actions);
          [right; exact Hst | left; exact Hst]. }
      rewrite andb_true_r. intros Hall. destruct (Hown Hall) as [_ Hne].
      split; [intros _; destruct (Calibration_App.image_size tab); eauto|].
      exact Hne.
    + unfold Calibration_App.update_extrin_detection; cbn.
      split; [intros d [= <-]; reflexivity|].
      split; [rewrite Hgui; now destruct (runs.first_detection_size actions)|].
      split; [exact Hids|].
      split; [destruct Hst as [Hst|Hst]; [now left|right];
              rewrite Hst; now destruct (runs.first_detection_size actions)|].
      rewrite andb_false_r. discriminate.
    + assert (Hfd : match runs.first_detection_size actions with
                    | Some s => Some s
                    | None => runs.first_detection_size [runs.Capture]
                    end = runs.first_detection_size actions)
        by now destruct (runs.first_detection_size actions).
      rewrite Hfd, andb_true_r.
      unfold Calibration_App.capture_calibration_frame.
      destruct (Z.ltb_spec (Calibration_App.get_corners_detected tab)
                  config.MIN_CHARUCO_CORNERS) as [Hlt|Hge];
        [exact (conj Hcd (conj Hgui (conj Hids (conj Hst Hown))))|].
      unfold Calibration_App.get_corners_detected in Hge.
      destruct (Calibration_App.current_detection tab) as [d|] eqn:Hd;
        [|unfold config.MIN_CHARUCO_CORNERS in Hge; lia].
      specialize (Hcd d eq_refl). rewrite Hcd in Hge.
      cbn.
      split; [intros d' [= <-]; exact Hcd|].
      split; [exact Hgui|].
      split.
      { apply Forall_app. split; [exact Hids|]. constructor; [|constructor].
        destruct (video_thread.charuco_ids d) as [l|];
          [|unfold config.MIN_CHARUCO_CORNERS in Hge; lia].
        exists l. split; [reflexivity|].
        unfold config.MIN_CHARUCO_CORNERS in Hge. lia. }
      split.
      { destruct (intrinsic_calibration.image_size (Calibration_App.intrinsic tab))
          as [sz|] eqn:Esz.
        - destruct Hst as [Hst|Hst]; [discriminate | now right].
        - rewrite Hgui. destruct (runs.first_detection_size actions);
            [now right | now left]. }
      intros Hall. destruct (Hown Hall) as [Hsz Hne].
      split; [intros _; apply Hsz; eauto|].
      intros _.
      destruct (intrinsic_calibration.image_size (Calibration_App.intrinsic tab));
        [eauto | apply Hsz; eauto].
Qed.

(** X4.  In every session of the calibration tab (detections arriving from
    the video thread, on this tab or on the extrinsics tab, and presses of
    Capture, in any order), each frame held by the store carries a list of at
    least 4 ids: a detection without ids, or with fewer than
    [MIN_CHARUCO_CORNERS], is never stored. *)
Theorem captured_frames_have_four_ids actions :
  Forall (fun ids : charuco_ids_t => exists l, ids = Some l /\ (4 <= length l)%nat)
    (intrinsic_calibration.all_charuco_ids
       (Calibration_App.intrinsic (runs.calibration_session actions))).
Proof. apply (calibration_session_facts actions). Qed.

(** X5.  The image size kept for the calibration is never that of a captured
    frame as such: it is either unset or [(width, height)] of the first frame
    the video thread reported on the calibration tab.  In a session without
    detections left over from the extrinsics tab it is set as soon as one frame
    has been captured. *)
Theorem calibration_size_is_first_detection actions :
  let tab := runs.calibration_session actions in
  let store := Calibration_App.intrinsic tab in
  Calibration_App.image_size tab = runs.first_detection_size actions
  /\ (intrinsic_calibration.image_size store = None
      \/ intrinsic_calibration.image_size store
         = runs.first_detection_size actions)
  /\ (forallb runs.own_action actions = true ->
      (0 < intrinsic_calibration.get_frame_count store)%nat ->
      intrinsic_calibration.image_size store
      = runs.first_detection_size actions
      /\ is_Some (runs.first_detection_size actions)).
Proof.
  intros tab store. subst tab store.
  destruct (calibration_session_facts actions) as (_ & Hgui & _ & Hst & Hown).
  split; [exact Hgui|]. split; [exact Hst|].
  unfold intrinsic_calibration.get_frame_count.
  intros Hall Hpos. destruct (Hown Hall) as [_ Hne].
  destruct (intrinsic_calibration.all_charuco_corners _) eqn:E;
    [cbn in Hpos; lia|].
  destruct Hne as [sz Hsz]; [discriminate|].
  destruct Hst as [Hst|Hst]; [congruence|].
  split; [exact Hst|]. rewrite <- Hst, Hsz. eauto.
Qed.

Lemma calibration_size_is_first_detection_witness :
  intrinsic_calibration.image_size
    (Calibration_App.intrinsic
       (runs.calibration_session
          [runs.Detection examples.three_corners examples.three_ids (480, 640)%Z;
           runs.Detection examples.four_corners examples.four_ids (960, 1280)%Z;
           runs.Capture]))
  = Some (640, 480)%Z.
Proof.
  apply (proj2 (proj2 (calibration_size_is_first_detection
    [runs.Detection examples.three_corners examples.three_ids (480, 640)%Z;
     runs.Detection examples.four_corners examples.four_ids (960, 1280)%Z;
     runs.Capture]))).
  - reflexivity.
  - vm_compute. constructor.
Defined.

Lemma calibration_handle_count tab a :
  (intrinsic_calibration.get_frame_count (Calibration_App.intrinsic tab)
   <= intrinsic_calibration.get_frame_count
        (Calibration_App.intrinsic (runs.calibration_handle tab a)))%nat.
Proof.
  destruct a as [c i shape|c i shape|]; cbn; [lia | lia |].
  unfold Calibration_App.capture_calibration_frame.
  destruct (Z.ltb _ _); [cbn; lia|].
  destruct (Calibration_App.current_detection tab); [|cbn; lia].
  unfold intrinsic_calibration.get_frame_count; cbn.
  rewrite length_app; cbn; lia.
Qed.

(** X6.  The calibration tab never removes a captured frame: over any
    continuation of a session the frame count does not decrease, so once the
    Calibrate button starts a worker (8 frames or more) it does so in every
    later state of the session, and it never shows the error box. *)
Theorem frame_count_never_decreases actions more board :
  let before := runs.calibration_session actions in
  let after := runs.calibration_session (actions ++ more) in
  (intrinsic_calibration.get_frame_count (Calibration_App.intrinsic before)
   <= intrinsic_calibration.get_frame_count (Calibration_App.intrinsic after))%nat
  /\ ((exists w, Calibration_App.run_calibration before board
                 = Calibration_App.WorkerStarted w) ->
      exists w', Calibration_App.run_calibration after board
                 = Calibration_App.WorkerStarted w')
  /\ Calibration_App.run_calibration after board
     <> Calibration_App.CalibrateBox (Calibration_App.critical "Calibration Error").
Proof.
  intros before after. subst before after.
  assert (Hmono :
    (intrinsic_calibration.get_frame_count
       (Calibration_App.intrinsic (runs.calibration_session actions))
     <= intrinsic_calibration.get_frame_count
          (Calibration_App.intrinsic (runs.calibration_session (actions ++ more))))%nat).
  { induction more as [|a more IH] using rev_ind; [rewrite app_nil_r; lia|].
    rewrite app_assoc, calibration_session_app.
    etransitivity; [exact IH | apply calibration_handle_count]. }
  assert (Hrun : forall tab,
    Calibration_App.run_calibration tab board
    = if (intrinsic_calibration.get_frame_count (Calibration_App.intrinsic tab) <? 8)%nat
      then Calibration_App.CalibrateBox
             (Calibration_App.warning "Insufficient Frames"
                "Collect at least 8 frames for calibration")
      else Calibration_App.WorkerStarted
             {| intrinsic_calibration.corners :=
                  intrinsic_calibration.all_charuco_corners (Calibration_App.intrinsic tab);
                intrinsic_calibration.ids :=
                  intrinsic_calibration.all_charuco_ids (Calibration_App.intrinsic tab);
                intrinsic_calibration.board := board;
                intrinsic_calibration.w_image_size :=
                  intrinsic_calibration.image_size (Calibration_App.intrinsic tab) |}).
  { intros tab. unfold Calibration_App.run_calibration,
      intrinsic_calibration.run_calibration.
    destruct (Nat.ltb _ 8); reflexivity. }
  split; [exact Hmono|]. rewrite !Hrun. split.
  - intros [w Hw].
    destruct (Nat.ltb_spec
      (intrinsic_calibration.get_frame_count
         (Calibration_App.intrinsic (runs.calibration_session actions))) 8);
      [discriminate|].
    destruct (Nat.ltb_spec
      (intrinsic_calibration.get_frame_count
         (Calibration_App.intrinsic (runs.calibration_session (actions ++ more)))) 8);
      [lia | eauto].
  - destruct (Nat.ltb _ 8); discriminate.
Qed.

Lemma frame_count_never_decreases_witness :
  exists w',
    Calibration_App.run_calibration
      (runs.calibration_session
         ((runs.Detection examples.four_corners examples.four_ids (480, 640)%Z
           :: repeat runs.Capture 8)
          ++ [runs.Detection examples.three_corners examples.three_ids (480, 640)%Z;
              runs.Capture]))
      examples.board_2x2
    = Calibration_App.WorkerStarted w'.
Proof.
  apply (proj1 (proj2 (frame_count_never_decreases
    (runs.Detection examples.four_corners examples.four_ids (480, 640)%Z
     :: repeat runs.Capture 8)
    [runs.Detection examples.three_corners examples.three_ids (480, 640)%Z;
     runs.Capture] examples.board_2x2))).
  eexists. reflexivity.
Defined.

(** X7.  Pressing Calibrate on a tab holding at least 8 frames, when the fit
    over those frames returns an RMS that is neither zero nor above 2.0,
    leaves a calibration file from which [load_calibration] returns exactly
    the camera matrix and the distortion coefficients of the fit.  With fewer
    than 8 frames, or an RMS that is zero or above 2.0, the files are left as
    they were. *)
Theorem calibrate_then_load `{ar : Aruco} tab board fs ret cm dc :
  let store := Calibration_App.intrinsic tab in
  calibrateCameraCharuco (intrinsic_calibration.all_charuco_corners store)
    (intrinsic_calibration.all_charuco_ids store) board
    (intrinsic_calibration.image_size store) = Ok (ret, cm, dc) ->
  is_Some (json_np.shape cm) -> is_Some (json_np.shape dc) ->
  ((8 <= intrinsic_calibration.get_frame_count store)%nat ->
   ((ret =? 0)%float || (2 <? ret)%float)%bool = false ->
   intrinsic_calibration.load_calibration None
     (Calibration_App.calibrate tab board fs) = Ok (cm, dc))
  /\ ((8 <= intrinsic_calibration.get_frame_count store)%nat ->
      ((ret =? 0)%float || (2 <? ret)%float)%bool = true ->
      Calibration_App.calibrate tab board fs = fs)
  /\ ((intrinsic_calibration.get_frame_count store < 8)%nat ->
      Calibration_App.calibrate tab board fs = fs).
Proof.
  intros store Hfit Hcm Hdc. subst store.
  unfold Calibration_App.calibrate, Calibration_App.run_calibration,
    intrinsic_calibration.run_calibration.
  split; [|split].
  - intros Hn Hok. apply Nat.ltb_ge in Hn. rewrite Hn.
    unfold intrinsic_calibration.run. cbn [intrinsic_calibration.corners
      intrinsic_calibration.ids intrinsic_calibration.board
      intrinsic_calibration.w_image_size].
    rewrite Hfit, Hok. cbn [Calibration_App.deliver Calibration_App.calibration_finished snd].
    apply load_after_save_calibration; assumption.
  - intros Hn Hbad. apply Nat.ltb_ge in Hn. rewrite Hn.
    unfold intrinsic_calibration.run. cbn [intrinsic_calibration.corners
      intrinsic_calibration.ids intrinsic_calibration.board
      intrinsic_calibration.w_image_size].
    rewrite Hfit, Hbad. reflexivity.
  - intros Hn. apply Nat.ltb_lt in Hn. now rewrite Hn.
Qed.

Lemma calibrate_then_load_witness :
  intrinsic_calibration.load_calibration None
    (Calibration_App.calibrate
       (H := examples.aruco_answering
               (Ok (0.5%float, examples.K800_array, examples.no_distortion)) "0.5000")
       (runs.calibration_session
          (runs.Detection examples.four_corners examples.four_ids (480, 640)%Z
           :: repeat runs.Capture 8))
       examples.board_2x2 ∅)
  = Ok (examples.K800_array, examples.no_distortion).
Proof.
  refine (proj1 (calibrate_then_load
    (ar := examples.aruco_answering
             (Ok (0.5%float, examples.K800_array, examples.no_distortion)) "0.5000")
    (runs.calibration_session
       (runs.Detection examples.four_corners examples.four_ids (480, 640)%Z
        :: repeat runs.Capture 8))
    examples.board_2x2 ∅ 0.5%float examples.K800_array examples.no_distortion
    eq_refl _ _) _ eq_refl).
  - eexists; reflexivity.
  - eexists; reflexivity.
  - vm_compute. constructor.
Defined.

(** ** The two files *)

(** X8.  The two files cannot be mistaken for one another: loading a file
    written by [save_extrinsics] as a calibration raises [KeyError] for
    ['camera_matrix'], and loading a file written by [save_calibration] as
    extrinsics raises [KeyError] for ['rvec']. *)
Theorem files_not_conflated self record rv tv path fs :
  (forall p fs',
     extrinsic_calibration.save_extrinsics self (Some rv) (Some tv) path fs
     = Ok (p, fs') ->
     intrinsic_calibration.load_calibration (Some p) fs'
     = Raise (KeyError "camera_matrix")
     /\ extrinsic_calibration.load_intrinsics (Some p) fs'
        = Raise (KeyError "camera_matrix"))
  /\ (let saved := intrinsic_calibration.save_calibration record path fs in
      extrinsic_calibration.load_extrinsics (Some (fst saved)) (snd saved)
      = Raise (KeyError "rvec")).
Proof.
  split.
  - intros p fs' [= <- <-].
    unfold intrinsic_calibration.load_calibration,
      extrinsic_calibration.load_intrinsics, json_np.load, json_np.dump.
    cbn [default]. rewrite lookup_insert_eq. split; reflexivity.
  - unfold extrinsic_calibration.load_extrinsics,
      intrinsic_calibration.save_calibration, json_np.load, json_np.dump.
    cbn [default fst snd]. rewrite lookup_insert_eq. reflexivity.
Qed.

Lemma files_not_conflated_witness :
  intrinsic_calibration.load_calibration (Some config.EXTRINSICS_FILE)
    (<[config.EXTRINSICS_FILE :=
         JObject [("rvec", json_np.vec_tolist (Vec3 0 0 0));
                  ("tvec", json_np.vec_tolist (Vec3 0 0 1))]]> ∅)
  = Raise (KeyError "camera_matrix").
Proof.
  exact (proj1 (proj1 (files_not_conflated examples.posed examples.model_a
    (Vec3 0 0 0) (Vec3 0 0 1) None ∅) _ _ eq_refl)).
Defined.

(** X9.  Saving a calibration to a path replaces what was there: the last
    record saved is the one [load_calibration] returns from that path, and the
    files are as if the earlier save to it had not happened. *)
Theorem save_calibration_last_write_wins fs p cm dc rms size older :
  is_Some (json_np.shape cm) -> is_Some (json_np.shape dc) ->
  let record :=
    {| intrinsic_calibration.cd_camera_matrix := json_np.tolist cm;
       intrinsic_calibration.cd_dist_coeffs := json_np.tolist dc;
       intrinsic_calibration.cd_rms := rms;
       intrinsic_calibration.cd_image_size := size |} in
  let fs1 := snd (intrinsic_calibration.save_calibration older p fs) in
  let fs2 := snd (intrinsic_calibration.save_calibration record p fs1) in
  intrinsic_calibration.load_calibration p fs2 = Ok (cm, dc)
  /\ fs2 = snd (intrinsic_calibration.save_calibration record p fs).
Proof.
  intros Hcm Hdc record fs1 fs2. subst record fs1 fs2. split.
  - now apply load_after_save_calibration.
  - unfold intrinsic_calibration.save_calibration, json_np.dump. cbn [snd].
    apply insert_insert_eq.
Qed.

Lemma save_calibration_last_write_wins_witness :
  intrinsic_calibration.load_calibration None
    (snd (intrinsic_calibration.save_calibration examples.model_a None
       (snd (intrinsic_calibration.save_calibration examples.model_b None ∅))))
  = Ok (examples.K800_array, examples.no_distortion).
Proof.
  refine (proj1 (save_calibration_last_write_wins ∅ None
    examples.K800_array examples.no_distortion 0.5%float (Some (640, 480)%Z)
    examples.model_b _ _)); eexists; reflexivity.
Defined.

(** X10.  With the default file names, [camera_calibration.json] and
    [camera_extrinsics.json], a calibration and a pose saved in either order
    are both returned by [Measurement.load_calibrations]: the camera matrix, the
    distortion coefficients, [rvec] and [tvec] are the ones saved. *)
Theorem load_calibrations_after_saves self fs cm dc rms size rv tv :
  is_Some (json_np.shape cm) -> is_Some (json_np.shape dc) ->
  let record :=
    {| intrinsic_calibration.cd_camera_matrix := json_np.tolist cm;
       intrinsic_calibration.cd_dist_coeffs := json_np.tolist dc;
       intrinsic_calibration.cd_rms := rms;
       intrinsic_calibration.cd_image_size := size |} in
  (forall fs1 p1 fs2,
     intrinsic_calibration.save_calibration record None fs = (p1, fs1) ->
     extrinsic_calibration.save_extrinsics self (Some rv) (Some tv) None fs1
     = Ok (config.EXTRINSICS_FILE, fs2) ->
     measurements_files.load_calibrations None None fs2 = Ok (cm, dc, rv, tv))
  /\ (forall fs1 fs2 p2,
     extrinsic_calibration.save_extrinsics self (Some rv) (Some tv) None fs
     = Ok (config.EXTRINSICS_FILE, fs1) ->
     intrinsic_calibration.save_calibration record None fs1 = (p2, fs2) ->
     measurements_files.load_calibrations None None fs2 = Ok (cm, dc, rv, tv)).
Proof.
  intros Hcm Hdc record. subst record.
  assert (Hne : config.CALIB_FILE <> config.EXTRINSICS_FILE) by discriminate.
  assert (Hload : forall fs',
    fs' !! config.CALIB_FILE
    = Some (intrinsic_calibration.calib_json
        {| intrinsic_calibration.cd_camera_matrix := json_np.tolist cm;
           intrinsic_calibration.cd_dist_coeffs := json_np.tolist dc;
           intrinsic_calibration.cd_rms := rms;
           intrinsic_calibration.cd_image_size := size |}) ->
    fs' !! config.EXTRINSICS_FILE
    = Some (JObject [("rvec", json_np.vec_tolist rv);
                     ("tvec", json_np.vec_tolist tv)]) ->
    measurements_files.load_calibrations None None fs' = Ok (cm, dc, rv, tv)).
  { intros fs' H1 H2. unfold measurements_files.load_calibrations, json_np.load.
    cbv zeta. cbn [default]. rewrite H1. cbn -[json_np.array].
    rewrite (array_tolist cm Hcm). cbn -[json_np.array].
    rewrite (array_tolist dc Hdc). cbn -[json_np.array json_np.vec_tolist].
    rewrite H2. destruct rv, tv. reflexivity. }
  split.
  - intros fs1 p1 fs2 [= <- <-] [= <-]. apply Hload.
    + unfold json_np.dump. cbn [default].
      rewrite lookup_insert_ne by congruence. apply lookup_insert_eq.
    + apply lookup_insert_eq.
  - intros fs1 fs2 p2 [= <-] [= <- <-]. apply Hload.
    + apply lookup_insert_eq.
    + unfold json_np.dump. cbn [default].
      rewrite lookup_insert_ne by congruence. apply lookup_insert_eq.
Qed.

Lemma load_calibrations_after_saves_witness :
  measurements_files.load_calibrations None None
    (<[config.EXTRINSICS_FILE :=
         JObject [("rvec", json_np.vec_tolist (Vec3 0 0 0));
                  ("tvec", json_np.vec_tolist (Vec3 0 0 1))]]>
       (snd (intrinsic_calibration.save_calibration examples.model_a None ∅)))
  = Ok (examples.K800_array, examples.no_distortion, Vec3 0 0 0, Vec3 0 0 1).
Proof.
  refine (proj1 (load_calibrations_after_saves examples.posed ∅
    examples.K800_array examples.no_distortion 0.5%float (Some (640, 480)%Z)
    (Vec3 0 0 0) (Vec3 0 0 1) _ _) _ _ _ eq_refl eq_refl).
  - eexists; reflexivity.
  - eexists; reflexivity.
Defined.

Lemma exists_file_lookup fs path :
  Calibration_App.exists_file fs path
  = match fs !! path with Some _ => true | None => false end.
Proof.
  unfold Calibration_App.exists_file.
  destruct (fs !! path) eqn:E.
  - apply bool_decide_eq_true. eauto.
  - apply bool_decide_eq_false. intros [? ?]; discriminate.
Qed.

(** [load_calibrations] is [load_calibration] followed by
    [load_extrinsics]. *)
Lemma load_calibrations_split p q fs :
  measurements_files.load_calibrations p q fs
  = (cmdc ← intrinsic_calibration.load_calibration p fs;
     rt ← extrinsic_calibration.load_extrinsics q fs;
     Ok (fst cmdc, snd cmdc, fst rt, snd rt)).
Proof.
  unfold measurements_files.load_calibrations,
    intrinsic_calibration.load_calibration,
    extrinsic_calibration.load_extrinsics. cbv zeta.
  destruct (json_np.load fs (default config.CALIB_FILE p)) as [cd|]; [|reflexivity].
  cbn [mbind res_bind].
  destruct (json_np.getitem cd "camera_matrix") as [cm|]; [|reflexivity].
  cbn [mbind res_bind].
  destruct (json_np.array cm) as [cma|]; [|reflexivity]. cbn [mbind res_bind].
  destruct (json_np.getitem cd "dist_coeffs") as [dc|]; [|reflexivity].
  cbn [mbind res_bind].
  destruct (json_np.array dc) as [dca|]; [|reflexivity]. cbn [mbind res_bind fst snd].
  destruct (json_np.load fs (default config.EXTRINSICS_FILE q)) as [ed|];
    [|reflexivity].
  cbn [mbind res_bind].
  destruct (json_np.getitem ed "rvec") as [r|]; [|reflexivity].
  cbn [mbind res_bind].
  destruct (json_np.array r) as [ra|]; [|reflexivity]. cbn [mbind res_bind].
  destruct (json_np.reshape_3_1 ra) as [rv|]; [|reflexivity]. cbn [mbind res_bind].
  destruct (json_np.getitem ed "tvec") as [t|]; [|reflexivity].
  cbn [mbind res_bind].
  destruct (json_np.array t) as [ta|]; [|reflexivity]. cbn [mbind res_bind].
  destruct (json_np.reshape_3_1 ta) as [tv|]; reflexivity.
Qed.

Lemma load_calibration_needs_file p fs cm dc :
  intrinsic_calibration.load_calibration p fs = Ok (cm, dc) ->
  is_Some (fs !! default config.CALIB_FILE p).
Proof.
  unfold intrinsic_calibration.load_calibration, json_np.load. cbv zeta.
  destruct (fs !! default config.CALIB_FILE p); [eauto | discriminate].
Qed.

Lemma load_extrinsics_needs_file q fs rv tv :
  extrinsic_calibration.load_extrinsics q fs = Ok (rv, tv) ->
  is_Some (fs !! default config.EXTRINSICS_FILE q).
Proof.
  unfold extrinsic_calibration.load_extrinsics, json_np.load. cbv zeta.
  destruct (fs !! default config.EXTRINSICS_FILE q); [eauto | discriminate].
Qed.

(** X11.  The GUI's [load_saved_calibration] returns [True] exactly when
    [Measurement.load_calibrations] succeeds on the default paths, and then
    the four attributes it sets are the four values that call returns; it
    never raises. *)
Theorem load_saved_calibration_agrees self fs :
  (fst (Calibration_App.load_saved_calibration self fs) = true
   <-> exists r, measurements_files.load_calibrations None None fs = Ok r)
  /\ (forall cm dc rv tv,
      measurements_files.load_calibrations None None fs = Ok (cm, dc, rv, tv) ->
      Calibration_App.load_saved_calibration self fs
      = (true,
         {| Calibration_App.camera_matrix := Some cm;
            Calibration_App.dist_coeffs := Some dc;
            Calibration_App.rvec := Some rv;
            Calibration_App.tvec := Some tv |})).
Proof.
  rewrite load_calibrations_split.
  unfold Calibration_App.load_saved_calibration. rewrite !exists_file_lookup.
  destruct (intrinsic_calibration.load_calibration None fs) as [[cm dc]|e] eqn:Hc.
  - destruct (load_calibration_needs_file None fs cm dc Hc) as [j Hj].
    cbn [default] in Hj. rewrite Hj. cbn [mbind res_bind].
    destruct (extrinsic_calibration.load_extrinsics None fs) as [[rv tv]|e] eqn:He.
    + destruct (load_extrinsics_needs_file None fs rv tv He) as [j' Hj'].
      cbn [default] in Hj'. rewrite Hj'. cbn. split; [split; eauto|].
      now intros ? ? ? ? [= <- <- <- <-].
    + cbn [mbind res_bind].
      split; [|discriminate].
      destruct (fs !! config.EXTRINSICS_FILE); cbn;
        (split; [discriminate | intros [? ?]; discriminate]).
  - cbn [mbind res_bind]. split; [|discriminate].
    destruct (fs !! config.CALIB_FILE); cbn;
      (split; [discriminate | intros [? ?]; discriminate]).
Qed.

Lemma load_saved_calibration_agrees_witness :
  Calibration_App.load_saved_calibration
    {| Calibration_App.camera_matrix := None; Calibration_App.dist_coeffs := None;
       Calibration_App.rvec := None; Calibration_App.tvec := None |}
    (<[config.EXTRINSICS_FILE :=
         JObject [("rvec", json_np.vec_tolist (Vec3 0 0 0));
                  ("tvec", json_np.vec_tolist (Vec3 0 0 1))]]>
       (snd (intrinsic_calibration.save_calibration examples.model_a None ∅)))
  = (true,
     {| Calibration_App.camera_matrix := Some examples.K800_array;
        Calibration_App.dist_coeffs := Some examples.no_distortion;
        Calibration_App.rvec := Some (Vec3 0 0 0);
        Calibration_App.tvec := Some (Vec3 0 0 1) |}).
Proof.
  apply (proj2 (load_saved_calibration_agrees _ _)). reflexivity.
Defined.

(** X12.  When the calibration file loads but there is no extrinsics file,
    [load_saved_calibration] returns [False] and yet has replaced the camera
    matrix and the distortion coefficients, while [rvec] and [tvec] keep
    whatever they held before.  When there is no calibration file, nothing is
    assigned, whether or not an extrinsics file exists. *)
Theorem load_saved_calibration_partial self fs :
  (forall cm dc,
     intrinsic_calibration.load_calibration None fs = Ok (cm, dc) ->
     fs !! config.EXTRINSICS_FILE = None ->
     Calibration_App.load_saved_calibration self fs
     = (false,
        {| Calibration_App.camera_matrix := Some cm;
           Calibration_App.dist_coeffs := Some dc;
           Calibration_App.rvec := Calibration_App.rvec self;
           Calibration_App.tvec := Calibration_App.tvec self |}))
  /\ (fs !! config.CALIB_FILE = None ->
      Calibration_App.load_saved_calibration self fs = (false, self)).
Proof.
  unfold Calibration_App.load_saved_calibration. rewrite !exists_file_lookup.
  split.
  - intros cm dc Hc Hnone.
    destruct (load_calibration_needs_file None fs cm dc Hc) as [j Hj].
    cbn [default] in Hj. now rewrite Hj, Hc, Hnone.
  - now intros ->.
Qed.

Lemma load_saved_calibration_partial_witness :
  Calibration_App.load_saved_calibration
    {| Calibration_App.camera_matrix := None; Calibration_App.dist_coeffs := None;
       Calibration_App.rvec := Some (Vec3 0.1 0.2 0.3);
       Calibration_App.tvec := Some (Vec3 0 0 0.5) |}
    (snd (intrinsic_calibration.save_calibration examples.model_a None ∅))
  = (false,
     {| Calibration_App.camera_matrix := Some examples.K800_array;
        Calibration_App.dist_coeffs := Some examples.no_distortion;
        Calibration_App.rvec := Some (Vec3 0.1 0.2 0.3);
        Calibration_App.tvec := Some (Vec3 0 0 0.5) |}).
Proof.
  exact (proj1 (load_saved_calibration_partial
    {| Calibration_App.camera_matrix := None; Calibration_App.dist_coeffs := None;
       Calibration_App.rvec := Some (Vec3 0.1 0.2 0.3);
       Calibration_App.tvec := Some (Vec3 0 0 0.5) |}
    (snd (intrinsic_calibration.save_calibration examples.model_a None ∅)))
    examples.K800_array examples.no_distortion eq_refl eq_refl).
Defined.

(** X13.  [load_extrinsics] counts elements, not nesting: whatever the
    nesting of the two arrays in the file, it returns their three entries in
    order when each holds exactly three numbers, and raises [ValueError] when
    one of them holds another number of entries. *)
Theorem load_extrinsics_counts_elements fs q r t ra ta :
  fs !! default config.EXTRINSICS_FILE q
  = Some (JObject [("rvec", r); ("tvec", t)]) ->
  json_np.array r = Ok ra -> json_np.array t = Ok ta ->
  (forall a b c d e f,
     json_np.flatten ra = [a; b; c] -> json_np.flatten ta = [d; e; f] ->
     extrinsic_calibration.load_extrinsics q fs = Ok (Vec3 a b c, Vec3 d e f))
  /\ (length (json_np.flatten ra) <> 3%nat \/ length (json_np.flatten ta) <> 3%nat ->
      exists msg,
        extrinsic_calibration.load_extrinsics q fs = Raise (ValueError msg)).
Proof.
  intros Hfile Hr Ht.
  unfold extrinsic_calibration.load_extrinsics, json_np.load. cbv zeta.
  rewrite Hfile. cbn -[json_np.array json_np.reshape_3_1].
  rewrite Hr. cbn -[json_np.array json_np.reshape_3_1].
  unfold json_np.reshape_3_1. split.
  - intros a b c d e f -> Hf. cbn -[json_np.array]. rewrite Ht.
    cbn. now rewrite Hf.
  - intros Hlen.
    destruct (json_np.flatten ra) as [|a [|b [|c [|x l]]]];
      try (cbn; eauto; fail).
    cbn -[json_np.array]. rewrite Ht. cbn.
    destruct Hlen as [Hlen|Hlen]; [now elim Hlen|].
    destruct (json_np.flatten ta) as [|d [|e [|f [|y l]]]]; cbn; eauto.
    now elim Hlen.
Qed.

Lemma load_extrinsics_counts_elements_witness :
  extrinsic_calibration.load_extrinsics None
    (<[config.EXTRINSICS_FILE :=
         JObject [("rvec", JList [JList [JFloat 1]; JList [JFloat 2]; JList [JFloat 3]]);
                  ("tvec", JList [JInt 0; JInt 0; JInt 1])]]> ∅)
  = Ok (Vec3 1 2 3, Vec3 0 0 1)
  /\ exists msg,
       extrinsic_calibration.load_extrinsics None
         (<[config.EXTRINSICS_FILE :=
              JObject [("rvec", JList [JFloat 1; JFloat 2]);
                       ("tvec", JList [JInt 0; JInt 0; JInt 1])]]> ∅)
       = Raise (ValueError msg).
Proof.
  split.
  - exact (proj1 (load_extrinsics_counts_elements
      (<[config.EXTRINSICS_FILE :=
           JObject [("rvec", JList [JList [JFloat 1]; JList [JFloat 2]; JList [JFloat 3]]);
                    ("tvec", JList [JInt 0; JInt 0; JInt 1])]]> ∅)
      None _ _ _ _ eq_refl eq_refl eq_refl) 1 2 3 0 0 1 eq_refl eq_refl)%float.
  - refine (proj2 (load_extrinsics_counts_elements
      (<[config.EXTRINSICS_FILE :=
           JObject [("rvec", JList [JFloat 1; JFloat 2]);
                    ("tvec", JList [JInt 0; JInt 0; JInt 1])]]> ∅)
      None _ _ _ _ eq_refl eq_refl eq_refl) _).
    left. discriminate.
Defined.

(** ** The pose solver, further *)

Lemma np_getitem_in_range {A : Type} (obj : list A) (i : Z) :
  (- Z.of_nat (length obj) <= i < Z.of_nat (length obj))%Z ->
  exists a, extrinsic_calibration.np_getitem obj i = Ok a
            /\ obj !! Z.to_nat (i mod Z.of_nat (length obj)) = Some a.
Proof.
  intros Hi. unfold extrinsic_calibration.np_getitem. cbv zeta.
  set (n := Z.of_nat (length obj)) in *.
  assert (Hj : (if (i <? 0)%Z then (i + n)%Z else i) = (i mod n)%Z).
  { destruct (Z.ltb_spec i 0).
    - apply (Z.mod_unique i n (-1)); lia.
    - apply (Z.mod_unique i n 0); lia. }
  rewrite Hj.
  assert (Hr : (0 <= i mod n < n)%Z) by (apply Z.mod_pos_bound; lia).
  destruct (Z.leb_spec 0 (i mod n)); [|lia].
  destruct (Z.ltb_spec (i mod n) n); [|lia]. cbn [andb].
  destruct (obj !! Z.to_nat (i mod n)) as [a|] eqn:E; [eauto|].
  apply lookup_ge_None in E. lia.
Qed.

Lemma np_getitem_out_of_range {A : Type} (obj : list A) (i : Z) :
  (i < - Z.of_nat (length obj) \/ Z.of_nat (length obj) <= i)%Z ->
  exists msg, extrinsic_calibration.np_getitem obj i = Raise (IndexError msg).
Proof.
  intros Hi. unfold extrinsic_calibration.np_getitem. cbv zeta.
  set (n := Z.of_nat (length obj)) in *.
  destruct (Z.ltb_spec i 0).
  - destruct (Z.leb_spec 0 (i + n)); [lia|]. cbn [andb]. eauto.
  - destruct (Z.leb_spec 0 i); [|lia].
    destruct (Z.ltb_spec i n); [lia|]. cbn [andb]. eauto.
Qed.

(** X14.  The object points that [capture_pose] hands to the solver: when
    every id lies between [-n] and [n - 1] for a board of [n] corners, there is
    one point per id, in the order of the ids, and the point for id [i] is
    corner [i mod n] of the board (a negative id counts from the end); as soon
    as one id lies outside that range, [IndexError] is raised. *)
Theorem gather_in_range {A : Type} (obj_points : list A) (ids : list Z) :
  let n := Z.of_nat (length obj_points) in
  (Forall (fun i => (- n <= i < n)%Z) ids ->
   exists pts,
     extrinsic_calibration.gather obj_points ids = Ok pts
     /\ length pts = length ids
     /\ forall k i, ids !! k = Some i ->
          pts !! k = obj_points !! Z.to_nat (i mod n))
  /\ (Exists (fun i => (i < - n \/ n <= i)%Z) ids ->
      exists msg,
        extrinsic_calibration.gather obj_points ids = Raise (IndexError msg)).
Proof.
  intros n. subst n. split.
  - induction 1 as [|i ids Hi Hids (pts & Hg & Hlen & Hk)].
    + exists []. repeat split. intros k i Hk. now rewrite lookup_nil in Hk.
    + destruct (np_getitem_in_range obj_points i Hi) as (a & Ha & Hl).
      exists (a :: pts). cbn [extrinsic_calibration.gather].
      rewrite Ha. cbn [mbind res_bind]. rewrite Hg. cbn [mbind res_bind].
      split; [reflexivity|]. split; [cbn; now rewrite Hlen|].
      intros [|k] j; cbn.
      * intros [= <-]. now rewrite Hl.
      * apply Hk.
  - induction ids as [|i ids IH]; intros Hex; [now apply Exists_nil in Hex|].
    cbn [extrinsic_calibration.gather].
    destruct (Z_lt_le_dec i (- Z.of_nat (length obj_points))) as [Hlo|Hlo];
      [destruct (np_getitem_out_of_range obj_points i) as [msg ->]; eauto|].
    destruct (Z_lt_le_dec i (Z.of_nat (length obj_points))) as [Hhi|Hhi];
      [|destruct (np_getitem_out_of_range obj_points i) as [msg ->]; eauto].
    destruct (np_getitem_in_range obj_points i) as (a & -> & _); [lia|].
    cbn [mbind res_bind].
    apply Exists_cons in Hex as [Hex|Hex]; [lia|].
    destruct (IH Hex) as [msg ->]. eauto.
Qed.

Lemma gather_in_range_witness :
  exists pts,
    extrinsic_calibration.gather (getChessboardCorners examples.board_2x2)
      [0; -1; 3; -4]%Z = Ok pts
    /\ length pts = 4%nat
    /\ pts !! 1%nat = Some (Vec3 0.02 0.02 0).
Proof.
  destruct (proj1 (gather_in_range (getChessboardCorners examples.board_2x2)
    [0; -1; 3; -4]%Z)) as (pts & Hg & Hlen & Hk).
  - repeat constructor; cbn; lia.
  - exists pts. split; [exact Hg|]. split; [exact Hlen|].
    exact (Hk 1%nat (-1)%Z eq_refl).
Defined.

(** X15.  After a successful [capture_pose], [save_extrinsics] called without
    a pose saves the pose just captured, and [load_extrinsics] returns it from
    the file; on an object that never captured a pose the same call raises
    [ValueError] and writes nothing. *)
Theorem capture_then_save_then_load `{cv : CV2} self corners ids board
    message rv tv path fs :
  fst (extrinsic_calibration.capture_pose self corners ids board)
  = Ok (true, message, Some rv, Some tv) ->
  let self' := snd (extrinsic_calibration.capture_pose self corners ids board) in
  (exists fs',
     extrinsic_calibration.save_extrinsics self' None None path fs
     = Ok (default config.EXTRINSICS_FILE path, fs')
     /\ extrinsic_calibration.load_extrinsics path fs' = Ok (rv, tv))
  /\ (forall K dc,
      extrinsic_calibration.save_extrinsics (extrinsic_calibration.new K dc)
        None None path fs
      = Raise (ValueError "Rotation or translation vector not available")).
Proof.
  intros Hout self'. subst self'. split; [|reflexivity].
  destruct (capture_pose_cases self corners ids board)
    as [(e & Hc) | [(msg & Hc) | (rv' & tv' & Hc)]];
    rewrite Hc in Hout |- *; cbn [fst snd] in *; try discriminate.
  injection Hout as <- <- <-.
  destruct (load_after_save_extrinsics self fs path rv' tv') as [_ Hl].
  eexists. split; [reflexivity | exact Hl].
Qed.

Lemma capture_then_save_then_load_witness :
  exists fs',
    extrinsic_calibration.save_extrinsics
      (snd (extrinsic_calibration.capture_pose (H := examples.cv2_facing)
              examples.with_intrinsics examples.four_corners examples.four_ids
              examples.board_2x2)) None None None ∅
    = Ok (config.EXTRINSICS_FILE, fs')
    /\ extrinsic_calibration.load_extrinsics None fs'
       = Ok (Vec3 0 0 0, Vec3 0 0 1).
Proof.
  exact (proj1 (capture_then_save_then_load (cv := examples.cv2_facing)
    examples.with_intrinsics examples.four_corners examples.four_ids
    examples.board_2x2 "Extrinsics captured successfully"
    (Vec3 0 0 0) (Vec3 0 0 1) None ∅ eq_refl)).
Defined.



(** X17.  Once [set_intrinsics] has been called, [capture_pose] never
    raises: every call returns a tuple.  And no call of [capture_pose],
    whatever its outcome, changes the camera matrix or the distortion
    coefficients of the object. *)
Theorem capture_pose_after_set_intrinsics `{cv : CV2} self K dc corners ids board :
  (exists r,
     fst (extrinsic_calibration.capture_pose
            (extrinsic_calibration.set_intrinsics self K dc) corners ids board)
     = Ok r)
  /\ extrinsic_calibration.camera_matrix
       (snd (extrinsic_calibration.capture_pose self corners ids board))
     = extrinsic_calibration.camera_matrix self
  /\ extrinsic_calibration.dist_coeffs
       (snd (extrinsic_calibration.capture_pose self corners ids board))
     = extrinsic_calibration.dist_coeffs self.
Proof.
  split.
  - unfold extrinsic_calibration.capture_pose,
      extrinsic_calibration.set_intrinsics.
    cbn [extrinsic_calibration.camera_matrix extrinsic_calibration.dist_coeffs].
    destruct corners as [cs|]; [|eauto].
    destruct (Nat.ltb (length cs) 4); [eauto|].
    destruct (extrinsic_calibration.capture_pose_try K dc cs ids board)
      as [[[[] ?] ?]|?]; eauto.
  - destruct (capture_pose_cases self corners ids board)
      as [(e & ->) | [(msg & ->) | (rv & tv & ->)]]; auto.
Qed.

(** ** The measurement module, further *)

(** The difference of a finite float with itself is [+0]. *)
Lemma sub_diag_finite (x : float) :
  PrimFloat.is_finite x = true -> (x - x)%float = 0%float.
Proof.
  unfold PrimFloat.is_finite, PrimFloat.is_nan, PrimFloat.is_infinity.
  rewrite !FloatAxioms.eqb_spec, abs_spec.
  replace (Prim2SF infinity) with (S754_infinity false) by reflexivity.
  intros Hfin.
  rewrite <- (SF2Prim_Prim2SF (x - x)), sub_spec. unfold SF64sub.
  destruct (Prim2SF x) as [s|s| |s m e]; try discriminate Hfin.
  - destruct s; reflexivity.
  - destruct s; discriminate Hfin.
  - cbn [SFsub]. rewrite Z.sub_diag. reflexivity.
Qed.

(** A square root is never below zero. *)
Lemma sqrt_not_negative (x : float) : (PrimFloat.sqrt x <? 0)%float = false.
Proof.
  rewrite ltb_spec, sqrt_spec.
  replace (Prim2SF 0) with (S754_zero false) by reflexivity.
  unfold SF64sqrt, SFsqrt.
  destruct (Prim2SF x) as [s|[|]| |[|] m e]; try reflexivity.
  destruct (SFsqrt_core_binary prec emax (Z.pos m) e) as [[mz ez] lz].
  unfold binary_round_aux.
  destruct (shr_fexp prec emax mz ez lz) as [mrs' e'].
  destruct (shr_fexp prec emax _ e' loc_Exact) as [mrs'' e''].
  destruct (shr_m mrs''); try reflexivity.
  destruct (Z.leb e'' (Z.sub emax prec)); reflexivity.
Qed.

Lemma image_to_plane_on_plane self pt R n d Xb :
  measurements.image_to_plane self pt R n d = Ok Xb -> v2 Xb = 0%float.
Proof.
  unfold measurements.image_to_plane, np.float_of_int.
  destruct (measurements.camera_matrix self); [|discriminate].
  cbn [mbind res_bind measurements.subscriptable].
  destruct (np.fits_float64 (fst pt)); [|discriminate].
  cbn [mbind res_bind].
  destruct (np.fits_float64 (snd pt)); [|discriminate].
  cbn [mbind res_bind].
  destruct (PrimFloat.ltb _ _); [discriminate|].
  destruct (measurements.tvec self); [|discriminate].
  cbn. now intros [= <-].
Qed.

(** A projected point with finite coordinates comes from a pixel that
    converts. *)
Lemma project_finite_fits K R t p Xb :
  MetrologyEngine.project K R t p = inr Xb ->
  PrimFloat.is_finite (v0 Xb) = true ->
  PrimFloat.is_finite (v1 Xb) = true ->
  pixel_fits p = true.
Proof.
  unfold MetrologyEngine.project.
  destruct (MetrologyEngine.parallel K R p); [discriminate|].
  intros [= <-]. cbn [v0 v1]. intros H _.
  unfold np.matvec, np.transpose, np.dot, np.sub, np.scale, MetrologyEngine.ray
    in H.
  cbn [v0 v1 v2 row0 row1 row2] in H.
  apply add_finite in H as [H _]. apply add_finite in H as [Hx Hy].
  apply mul_finite in Hx as [_ Hx]. apply mul_finite in Hy as [_ Hy].
  apply sub_finite in Hx as [Hx _]. apply sub_finite in Hy as [Hy _].
  apply mul_finite in Hx as [_ Hx]. apply mul_finite in Hy as [_ Hy].
  apply div_finite, sub_finite in Hx as [Hx _].
  apply div_finite, sub_finite in Hy as [Hy _].
  unfold pixel_fits, np.fits_float64.
  now rewrite (finite_not_infinity _ Hx), (finite_not_infinity _ Hy).
Qed.

(** X18.  [compute_distance] looks at the first two clicks only: on an object
    holding two clicks or more it returns what it returns on the same object
    holding just the first two. *)
Theorem compute_distance_uses_first_two `{cv : CV2} self p1 p2 rest :
  measurements.click_points self = p1 :: p2 :: rest ->
  fst (measurements.compute_distance self)
  = fst (measurements.compute_distance
           (snd (measurements.add_click_point
              (snd (measurements.add_click_point
                 (measurements.reset_points self) p1)) p2))).
Proof.
  destruct self as [[K|] [dc|] [rv|] [t|] pts]; cbn [measurements.click_points];
    intros ->; try reflexivity.
  unfold measurements.compute_distance.
  cbn [measurements.click_points measurements.camera_matrix
       measurements.dist_coeffs measurements.rvec measurements.tvec
       measurements.add_click_point measurements.reset_points snd fst
       length app Nat.ltb Nat.leb].
  rewrite (compute_distance_try_project _ K rv t p1 p2 rest) by reflexivity.
  rewrite (compute_distance_try_project _ K rv t p1 p2 []) by reflexivity.
  destruct (pixel_fits p1), (pixel_fits p2);
    destruct (MetrologyEngine.project K (Rodrigues rv) t p1) as [e1|Xb1];
    destruct (MetrologyEngine.project K (Rodrigues rv) t p2) as [e2|Xb2];
    reflexivity.
Qed.

Lemma compute_distance_uses_first_two_witness :
  fst (measurements.compute_distance (H := examples.cv2_facing)
         examples.three_clicks)
  = fst (measurements.compute_distance (H := examples.cv2_facing)
           examples.two_clicks).
Proof.
  exact (compute_distance_uses_first_two (cv := examples.cv2_facing)
    examples.three_clicks (320, 240)%Z (360, 240)%Z [(100, 100)%Z] eq_refl).
Defined.

(** X19.  The distance does not depend on the order of the two clicks:
    clicking [p2] then [p1] gives the same success flag, metres and
    centimetres as clicking [p1] then [p2], bit for bit, with the two 3D
    points exchanged.  The message is the same too when both pixels convert to
    float64, or neither does; when just one does not, the two orders can name
    different failures (the first click is converted and projected first). *)
Theorem compute_distance_symmetric `{cv : CV2} self p1 p2 :
  let clicked p q :=
    snd (measurements.add_click_point
           (snd (measurements.add_click_point (measurements.reset_points self) p))
           q) in
  let '(success, message, distance_m, distance_cm, pt1_3d, pt2_3d) :=
    fst (measurements.compute_distance (clicked p1 p2)) in
  (exists message',
     fst (measurements.compute_distance (clicked p2 p1))
     = (success, message', distance_m, distance_cm, pt2_3d, pt1_3d))
  /\ (pixel_fits p1 = pixel_fits p2 ->
      fst (measurements.compute_distance (clicked p2 p1))
      = (success, message, distance_m, distance_cm, pt2_3d, pt1_3d)).
Proof.
  destruct self as [[K|] [dc|] [rv|] [t|] pts];
    try (split; [eexists|intros _]; reflexivity).
  cbv zeta. unfold measurements.compute_distance.
  cbn [measurements.click_points measurements.camera_matrix
       measurements.dist_coeffs measurements.rvec measurements.tvec
       measurements.add_click_point measurements.reset_points snd fst
       length app Nat.ltb Nat.leb].
  rewrite (compute_distance_try_project _ K rv t p1 p2 []) by reflexivity.
  rewrite (compute_distance_try_project _ K rv t p2 p1 []) by reflexivity.
  destruct (pixel_fits p1), (pixel_fits p2);
    destruct (MetrologyEngine.project K (Rodrigues rv) t p1) as [e1|Xb1];
    destruct (MetrologyEngine.project K (Rodrigues rv) t p2) as [e2|Xb2];
    cbv zeta; cbn [fst]; rewrite ?(linalg_norm_sub_sym Xb1 Xb2);
    (split; [eexists; reflexivity | intros E; first [reflexivity | discriminate E]]).
Qed.

Lemma compute_distance_symmetric_witness :
  fst (measurements.compute_distance (H := examples.cv2_facing)
         (examples.calibrated [(360, 240); (320, 240)]%Z))
  = (true, "Distance computed successfully", Some 0.05%float, Some 5%float,
     Some (Vec3 0.05 0 0), Some (Vec3 0 0 0)).
Proof.
  exact (proj2 (compute_distance_symmetric (cv := examples.cv2_facing)
    examples.two_clicks (320, 240)%Z (360, 240)%Z) eq_refl).
Defined.

(** X20.  Clicking the same pixel twice gives a distance of exactly zero,
    in metres and in centimetres, whenever the pixel projects to a point with
    finite coordinates. *)
Theorem same_pixel_zero_distance `{cv : CV2} self K dc rv t p Xb :
  measurements.camera_matrix self = Some K ->
  measurements.dist_coeffs self = Some dc ->
  measurements.rvec self = Some rv ->
  measurements.tvec self = Some t ->
  measurements.click_points self = [p; p] ->
  MetrologyEngine.project K (Rodrigues rv) t p = inr Xb ->
  PrimFloat.is_finite (v0 Xb) = true ->
  PrimFloat.is_finite (v1 Xb) = true ->
  fst (measurements.compute_distance self)
  = (true, "Distance computed successfully", Some 0%float, Some 0%float,
     Some Xb, Some Xb).
Proof.
  intros HK Hd Hr Ht Hp Hproj Hx Hy.
  assert (Hz : v2 Xb = 0%float).
  { unfold MetrologyEngine.project in Hproj.
    destruct (MetrologyEngine.parallel _ _ _); [discriminate|].
    now injection Hproj as <-. }
  unfold measurements.compute_distance. rewrite Hp, HK, Hd, Hr, Ht.
  cbn [length Nat.ltb Nat.leb].
  rewrite (compute_distance_try_project self K rv t p p []) by assumption.
  rewrite (project_finite_fits _ _ _ _ _ Hproj Hx Hy), Hproj.
  cbv zeta. cbn [fst].
  unfold np.linalg_norm, np.dot, np.sub. cbn [v0 v1 v2].
  rewrite (sub_diag_finite _ Hx), (sub_diag_finite _ Hy), Hz. reflexivity.
Qed.

Lemma same_pixel_zero_distance_witness :
  fst (measurements.compute_distance (H := examples.cv2_facing)
         (examples.calibrated [(360, 240); (360, 240)]%Z))
  = (true, "Distance computed successfully", Some 0%float, Some 0%float,
     Some (Vec3 0.05 0 0), Some (Vec3 0.05 0 0)).
Proof.
  exact (same_pixel_zero_distance (cv := examples.cv2_facing)
    (examples.calibrated [(360, 240); (360, 240)]%Z)
    examples.K800 examples.no_distortion (Vec3 0 0 0) (Vec3 0 0 1)
    (360, 240)%Z (Vec3 0.05 0 0)
    eq_refl eq_refl eq_refl eq_refl eq_refl eq_refl eq_refl eq_refl).
Defined.

(** X21.  Whenever [compute_distance] reports success, the distance in
    metres is not below zero, the distance in centimetres is that number
    times 100, and both 3D points have a Z coordinate of exactly zero. *)
Theorem success_result_shape `{cv : CV2} self message d c a b :
  fst (measurements.compute_distance self)
  = (true, message, Some d, Some c, Some a, Some b) ->
  (d <? 0)%float = false
  /\ c = (d * 100)%float
  /\ v2 a = 0%float /\ v2 b = 0%float.
Proof.
  intros Hout.
  assert (Htry : measurements.compute_distance_try self = Ok (d, c, a, b)).
  { revert Hout. unfold measurements.compute_distance.
    destruct (Nat.ltb _ 2); [discriminate|].
    destruct (measurements.camera_matrix self), (measurements.dist_coeffs self);
      try discriminate.
    destruct (measurements.rvec self), (measurements.tvec self);
      try discriminate.
    destruct (measurements.compute_distance_try self) as [[[[d' c'] a'] b']|e];
      [|discriminate].
    cbn [fst]. now intros [= _ <- <- <- <-]. }
  revert Htry. unfold measurements.compute_distance_try.
  destruct (measurements.flatten (measurements.rvec self)) as [rv|];
    [|discriminate]. cbn [mbind res_bind].
  destruct (measurements.flatten (measurements.tvec self)) as [t|];
    [|discriminate]. cbn [mbind res_bind].
  destruct (measurements.getitem (measurements.click_points self) 0) as [p0|];
    [|discriminate]. cbn [mbind res_bind].
  destruct (measurements.image_to_plane self p0 _ _ _) as [pt1|] eqn:E1;
    [|discriminate]. cbn [mbind res_bind].
  destruct (measurements.getitem (measurements.click_points self) 1) as [p1|];
    [|discriminate]. cbn [mbind res_bind].
  destruct (measurements.image_to_plane self p1 _ _ _) as [pt2|] eqn:E2;
    [|discriminate]. cbn [mbind res_bind].
  intros [= <- <- <- <-].
  split; [apply sqrt_not_negative|]. split; [reflexivity|].
  split; eapply image_to_plane_on_plane; eassumption.
Qed.

Lemma success_result_shape_witness :
  (0.05 <? 0)%float = false
  /\ 5%float = (0.05 * 100)%float
  /\ v2 (Vec3 0 0 0) = 0%float /\ v2 (Vec3 0.05 0 0) = 0%float.
Proof.
  exact (success_result_shape (cv := examples.cv2_facing) examples.two_clicks
    "Distance computed successfully" 0.05%float 5%float (Vec3 0 0 0)
    (Vec3 0.05 0 0) eq_refl).
Defined.

Section SessionCalibration.

Context `{cv : CV2}.



End SessionCalibration.



(** ** Camera discovery *)

Lemma StronglySorted_snoc (l : list Z) (n : Z) :
  StronglySorted Z.lt l -> (forall i, In i l -> (i < n)%Z) ->
  StronglySorted Z.lt (l ++ [n]).
Proof.
  induction 1 as [|x l Hs IH Hx]; intros Hlt; cbn.
  - repeat constructor.
  - constructor.
    + apply IH. intros i Hi. apply Hlt. now right.
    + apply Forall_app. split; [exact Hx|]. constructor; [|constructor].
      apply Hlt. now left.
Qed.

Lemma available_cameras_upto (opens : Z -> camera_utils.backend -> res bool) b
    (n : nat) :
  let l :=
    fold_left
      (fun (available_cameras : list Z) i =>
         match opens i b with
         | Ok true => (available_cameras ++ [i])%list
         | Ok false => available_cameras
         | Raise _ => available_cameras
         end)
      (map Z.of_nat (seq 0 n)) [] in
  (forall i, In i l <-> (0 <= i < Z.of_nat n)%Z /\ opens i b = Ok true)
  /\ StronglySorted Z.lt l.
Proof.
  induction n as [|n IH]; cbv zeta.
  - cbn. split; [|constructor]. intros i. split; [tauto | lia].
  - rewrite seq_S, map_app, fold_left_app. cbn [map fold_left Nat.add].
    cbv zeta in IH. destruct IH as [Hin Hs].
    set (l := fold_left _ (map Z.of_nat (seq 0 n)) []) in *.
    destruct (opens (Z.of_nat n) b) as [[|]|e] eqn:Ho.
    + split.
      * intros i. rewrite in_app_iff, Hin. cbn. split.
        -- intros [[Hi Hok]|[<-|[]]]; split; auto; lia.
        -- intros [Hi Hok].
           destruct (Z.eq_dec i (Z.of_nat n)) as [->|Hne]; [auto|].
           left. split; [lia | exact Hok].
      * apply StronglySorted_snoc; [exact Hs|].
        intros i Hi. apply Hin in Hi. lia.
    + split; [|exact Hs]. intros i. rewrite Hin. split.
      * intros [Hi Hok]. split; [lia | exact Hok].
      * intros [Hi Hok]. split; [|exact Hok].
        destruct (Z.eq_dec i (Z.of_nat n)) as [->|Hne]; [congruence | lia].
    + split; [|exact Hs]. intros i. rewrite Hin. split.
      * intros [Hi Hok]. split; [lia | exact Hok].
      * intros [Hi Hok]. split; [|exact Hok].
        destruct (Z.eq_dec i (Z.of_nat n)) as [->|Hne]; [congruence | lia].
Qed.

(** X23.  [get_available_cameras(max_test)] returns exactly the indices from
    0 to [max_test - 1] whose capture opened with the backend of the platform,
    in ascending order and without repetition; an index whose constructor
    raised is skipped, and a [max_test] of zero or less gives the empty
    list. *)
Theorem available_cameras_exact opens system max_test :
  let l := camera_utils.get_available_cameras opens system max_test in
  (forall i,
     In i l <->
     (0 <= i < max_test)%Z
     /\ opens i (camera_utils.get_camera_backend system) = Ok true)
  /\ StronglySorted Z.lt l
  /\ ((max_test <= 0)%Z -> l = []).
Proof.
  intros l. subst l. unfold camera_utils.get_available_cameras. cbv zeta.
  destruct (available_cameras_upto opens
    (camera_utils.get_camera_backend system) (Z.to_nat max_test)) as [Hin Hs].
  split; [|split; [exact Hs|]].
  - intros i. rewrite Hin. split; intros [Hi Hok]; (split; [lia | exact Hok]).
  - intros Hle. replace (Z.to_nat max_test) with 0%nat by lia. reflexivity.
Qed.

Lemma available_cameras_exact_witness :
  camera_utils.get_available_cameras
    (fun i b =>
       if (i =? 1)%Z then Raise (cv2_error "can't open camera by index")
       else Ok (Z.even i))
    "Linux" (-3)
  = []
  /\ In 2%Z
       (camera_utils.get_available_cameras
          (fun i b =>
             if (i =? 1)%Z then Raise (cv2_error "can't open camera by index")
             else Ok (Z.even i))
          "Linux" 4).
Proof.
  split.
  - apply (proj2 (proj2 (available_cameras_exact
      (fun i b =>
         if (i =? 1)%Z then Raise (cv2_error "can't open camera by index")
         else Ok (Z.even i))
      "Linux" (-3)))).
    lia.
  - apply (proj1 (available_cameras_exact
      (fun i b =>
         if (i =? 1)%Z then Raise (cv2_error "can't open camera by index")
         else Ok (Z.even i))
      "Linux" 4) 2%Z).
    split; [lia | reflexivity].
Defined.

(** ** Arrays read from a file *)

Lemma ndarray_nested_ind (P : ndarray -> Prop) :
  (forall f, P (Num f)) -> (forall l, Forall P l -> P (Arr l)) ->
  forall a, P a.
Proof.
  intros HN HA. fix IH 1. intros [f|l]; [apply HN|]. apply HA.
  induction l as [|x l IHl]; constructor; [apply IH | exact IHl].
Qed.

(** A rectangular array holds as many numbers as the product of its shape. *)
Lemma flatten_length_shape a :
  forall s, json_np.shape a = Some s ->
  length (json_np.flatten a) = fold_right Nat.mul 1%nat s.
Proof.
  induction a as [f|l IH] using ndarray_nested_ind; intros s.
  - now intros [= <-].
  - destruct l as [|x r]; [now intros [= <-]|].
    cbn [json_np.shape map].
    destruct (json_np.shape x) as [s0|] eqn:Hx; [|discriminate].
    destruct (forallb _ _) eqn:Hall; [|discriminate].
    intros [= <-].
    apply Forall_cons in IH as [IHx IHr].
    cbn [json_np.flatten map concat fold_right length].
    rewrite length_app, (IHx s0 Hx). f_equal.
    rewrite forallb_forall in Hall.
    clear IHx Hx x. induction r as [|y r IHr']; [reflexivity|].
    apply Forall_cons in IHr as [IHy IHr].
    cbn [map concat length]. rewrite length_app.
    rewrite (IHy s0).
    + rewrite IHr'; [reflexivity | exact IHr |].
      intros z Hz. apply Hall. cbn. now right.
    + specialize (Hall (json_np.shape y) ltac:(cbn; now left)).
      now apply bool_decide_eq_true in Hall.
Qed.

(** X24.  An array built by [np.array] from a loaded value is rectangular,
    and [reshape(3, 1)] succeeds on it exactly when the product of its shape is
    3 (a 3-vector, a 3x1 or a 1x3 array, for instance). *)
Theorem reshape_needs_three j a :
  json_np.array j = Ok a ->
  exists s,
    json_np.shape a = Some s
    /\ ((exists v, json_np.reshape_3_1 a = Ok v)
        <-> fold_right Nat.mul 1%nat s = 3%nat).
Proof.
  unfold json_np.array.
  destruct (json_np.elements j) as [a'|]; [|discriminate].
  cbn [mbind res_bind].
  destruct (json_np.shape a') as [s|] eqn:Hs; [|discriminate].
  intros [= <-]. exists s. split; [exact Hs|].
  rewrite <- (flatten_length_shape a' s Hs). unfold json_np.reshape_3_1.
  destruct (json_np.flatten a') as [|x [|y [|z [|w l]]]]; cbn;
    split; try (intros [? ?]; discriminate); try discriminate; eauto.
Qed.

Lemma reshape_needs_three_witness :
  exists s,
    json_np.shape (Arr [Arr [Num 1; Num 2; Num 3]]) = Some s
    /\ ((exists v, json_np.reshape_3_1 (Arr [Arr [Num 1; Num 2; Num 3]]) = Ok v)
        <-> fold_right Nat.mul 1%nat s = 3%nat).
Proof.
  exact (reshape_needs_three (JList [JList [JInt 1; JInt 2; JInt 3]])
    (Arr [Arr [Num 1; Num 2; Num 3]]) eq_refl).
Defined.

(** ** The second click *)

(** What [compute_distance] returns is a success with the metres, the
    centimetres (metres times 100) and the two points, or a failure with a
    message and no number. *)
Lemma compute_distance_outcome `{cv : CV2} self :
  (exists d a b,
     fst (measurements.compute_distance self)
     = (true, "Distance computed successfully", Some d, Some (d * 100)%float,
        Some a, Some b))
  \/ (exists message,
       fst (measurements.compute_distance self)
       = (false, message, None, None, None, None)).
Proof.
  unfold measurements.compute_distance.
  destruct (Nat.ltb _ 2); [right; eexists; reflexivity|].
  destruct (measurements.camera_matrix self), (measurements.dist_coeffs self);
    try (right; eexists; reflexivity).
  destruct (measurements.rvec self), (measurements.tvec self);
    try (right; eexists; reflexivity).
  destruct (measurements.compute_distance_try self) as [[[[d c] a] b]|e] eqn:E;
    [|right; eexists; reflexivity].
  left. exists d, a, b. cbn [fst]. enough (c = (d * 100)%float) by congruence.
  revert E. unfold measurements.compute_distance_try.
  repeat match goal with
  | |- context [mbind _ ?r] =>
    destruct r; cbn [mbind res_bind]; [|discriminate]
  end.
  now intros [= <- <- _ _].
Qed.

(** X25.  In a session of the GUI a click writes a line to the measurement
    log exactly when it is the second click on a frozen frame; the measurement
    module then holds the earlier click followed by this one, and the line is
    what [compute_distance] finds for those two: the distance in metres,
    centimetres (metres times 100) and millimetres (metres times 1000) when it
    succeeds, its failure message when it does not.  Every other click writes
    no line. *)
Theorem second_click_measures `{cv : CV2} actions img :
  let s := Calibration_App.session actions in
  let s' := fst (Calibration_App.measurement_click s img) in
  let line := snd (Calibration_App.measurement_click s img) in
  (forall l, line = Some l ->
     Calibration_App.frozen_frame s = true
     /\ exists p,
          measurements.click_points (Calibration_App.measurement s) = [p]
          /\ measurements.click_points (Calibration_App.measurement s') = [p; img]
          /\ l = Calibration_App.compute_distance s'
          /\ ((exists d a b,
                 fst (measurements.compute_distance
                        (Calibration_App.measurement s'))
                 = (true, "Distance computed successfully", Some d,
                    Some (d * 100)%float, Some a, Some b)
                 /\ l = Calibration_App.log_distance d (d * 100) (d * 1000))
              \/ (exists message,
                   fst (measurements.compute_distance
                          (Calibration_App.measurement s'))
                   = (false, message, None, None, None, None)
                   /\ l = Calibration_App.log_failure message)))
  /\ (Calibration_App.frozen_frame s = true ->
      length (measurements.click_points (Calibration_App.measurement s)) = 1%nat ->
      line = Some (Calibration_App.compute_distance s')).
Proof.
  intros s s' line. subst s' line.
  destruct (session_invariant actions) as [Hsync Hcap]. fold s in Hsync, Hcap.
  unfold Calibration_App.measurement_click.
  destruct (Calibration_App.frozen_frame s) eqn:Hf; cbn [negb];
    [|split; [discriminate | discriminate]].
  specialize (Hsync eq_refl). rewrite Hsync.
  unfold measurements.add_click_point.
  destruct (measurements.click_points (Calibration_App.measurement s))
    as [|p [|q rest]] eqn:Hpts; cbn [length app Nat.leb Nat.eqb fst snd].
  - split; [discriminate | discriminate].
  - split; [|reflexivity].
    intros l [= <-]. split; [reflexivity|]. exists p.
    split; [reflexivity|]. split; [reflexivity|]. split; [reflexivity|].
    unfold Calibration_App.compute_distance.
    match goal with
    | |- context [measurements.compute_distance ?m] =>
      destruct (compute_distance_outcome m) as [(d & a & b & E) | (msg & E)];
        rewrite E
    end.
    + left. exists d, a, b. split; reflexivity.
    + right. exists msg. split; reflexivity.
  - split; [discriminate | discriminate].
Qed.

Lemma second_click_measures_witness :
  snd (Calibration_App.measurement_click (H := examples.cv2_facing)
         (Calibration_App.session (H := examples.cv2_facing)
            (examples.clicking [(320, 240)%Z])) (360, 240)%Z)
  = Some (Calibration_App.log_distance 0.05 5 50).
Proof.
  exact (proj2 (second_click_measures (cv := examples.cv2_facing)
    (examples.clicking [(320, 240)%Z]) (360, 240)%Z) eq_refl eq_refl).
Defined.
